(** * SuperNjagu agent: the command dispatcher of [src/main.py]

    A shallow embedding of [SuperNjaguMain] (its [run_task],
    [interactive_mode] and [_show_help] methods), of the coroutine [main]
    and of the [__main__] entry point, with the properties of the
    dispatcher stated and proved over it.

    Conventions of the embedding.
    - A Python [str] is a [string]; a character stands for the code point
      of the same number, so the texts read from the terminal range over
      U+0000..U+00FF.  [isspace] and [lower] are CPython's on that range.
      The text constants of the source are copied as they are written;
      their pictographs only ever appear inside those constants.
    - Effects are explicit: a computation maps a [state] (the collaborators'
      world, asyncio's running-loop flag and the transcript of what the
      program did so far) to an [outcome] and a new state.
    - What [input] returns is given from outside, one [input_event] per
      call. *)

From Stdlib Require Import NArith Ascii String List Bool Lia.
From Stdlib Require Import DecimalString.
From stdpp Require Import base option list strings gmap.

Local Open Scope string_scope.
Local Open Scope list_scope.

(** ** Python's [str] *)

Module Str.

(** [str.isspace] on one character: CPython's [_Py_ascii_whitespace]
    table below U+0080, and U+0085, U+00A0 above it. *)
Definition isspace (c : ascii) : bool :=
  let n := N_of_ascii c in
  ((9 <=? n) && (n <=? 13) || (28 <=? n) && (n <=? 32)
   || (n =? 133) || (n =? 160))%N.

(** [str.lower] on one character: A-Z, and U+00C0..U+00DE without the
    multiplication sign U+00D7, move up by 32. *)
Definition lower_char (c : ascii) : ascii :=
  let n := N_of_ascii c in
  if ((65 <=? n) && (n <=? 90)
      || (192 <=? n) && (n <=? 222) && negb (n =? 215))%N
  then ascii_of_N (n + 32) else c.

(** [s.lower()] *)
Fixpoint lower (s : string) : string :=
  match s with
  | EmptyString => EmptyString
  | String c s' => String (lower_char c) (lower s')
  end.

(** [s.lstrip()] *)
Fixpoint lstrip (s : string) : string :=
  match s with
  | EmptyString => EmptyString
  | String c s' => if isspace c then lstrip s' else s
  end.

(** [s.rstrip()] *)
Fixpoint rstrip (s : string) : string :=
  match s with
  | EmptyString => EmptyString
  | String c s' =>
      match rstrip s' with
      | EmptyString => if isspace c then EmptyString else String c EmptyString
      | r => String c r
      end
  end.

(** [s.strip()]: both ends, whitespace as [isspace] has it. *)
Definition strip (s : string) : string := rstrip (lstrip s).

(** [s.startswith(p)] *)
Fixpoint startswith (s p : string) : bool :=
  match p, s with
  | EmptyString, _ => true
  | String a p', String b s' => Ascii.eqb a b && startswith s' p'
  | String _ _, EmptyString => false
  end.

(** [s.split(sep, 1)] for a one-character [sep]: cut at the first [sep],
    or the whole of [s] alone when it has none. *)
Fixpoint split1 (sep : ascii) (s : string) : list string :=
  match s with
  | EmptyString => [EmptyString]
  | String c s' =>
      if Ascii.eqb c sep then [EmptyString; s']
      else match split1 sep s' with
           | h :: t => String c h :: t
           | [] => []
           end
  end.

(** [sep.join(l)] *)
Definition join (sep : string) (l : list string) : string :=
  String.concat sep l.

(** [s[:n]] *)
Definition slice_to (n : nat) (s : string) : string := String.substring 0 n s.

(** [s * n] *)
Fixpoint mul (s : string) (n : nat) : string :=
  match n with
  | O => EmptyString
  | S n' => s +:+ mul s n'
  end.

(** truth value of a [str]: non-empty. *)
Definition truthy (s : string) : bool := negb (String.eqb s EmptyString).

(** [str(n)] for a length. *)
Definition of_nat (n : nat) : string := NilEmpty.string_of_uint (Nat.to_uint n).

(** [str(b)] *)
Definition of_bool (b : bool) : string := if b then "True" else "False".

(** every character of [s] is whitespace ([s] may be empty). *)
Fixpoint all_space (s : string) : bool :=
  match s with
  | EmptyString => true
  | String c s' => isspace c && all_space s'
  end.

(** the last character of [s], if any. *)
Fixpoint last (s : string) : option ascii :=
  match s with
  | EmptyString => None
  | String c EmptyString => Some c
  | String _ s' => last s'
  end.

(** the first character of [s], if any. *)
Definition first (s : string) : option ascii :=
  match s with
  | EmptyString => None
  | String c _ => Some c
  end.

(** no character of [s] is the space U+0020. *)
Fixpoint no_space (s : string) : bool :=
  match s with
  | EmptyString => true
  | String c s' => negb (Ascii.eqb c " ") && no_space s'
  end.

(** [s] is empty or starts with something other than whitespace. *)
Definition starts_nonspace (s : string) : Prop :=
  match first s with Some c => isspace c = false | None => True end.

(** [s] is empty or ends with something other than whitespace. *)
Definition ends_nonspace (s : string) : Prop :=
  match last s with Some c => isspace c = false | None => True end.

End Str.

(** Line feed and the double quote, for the text constants. *)
Definition LF : string := String (ascii_of_nat 10) EmptyString.
Definition DQ : string := String (ascii_of_nat 34) EmptyString.

(** ** Values exchanged with the collaborators *)

(** Modelled from the spec: the agent ([src/agent.py]) is not part of the
    sources; its result is "a record with fields [status] (textual
    outcome), [steps] (ordered sequence of step records, count observable),
    and [final_result] (opaque summary value)".  [status] and
    [final_result] hold the text that formatting them yields. *)
Record TaskResult : Type := mkTaskResult {
  status : string;
  steps : list string;
  final_result : string
}.

(** Modelled from the spec: what [tools/cli_operations.py] returns is "a
    record with [success] (boolean), [stdout] (text ...)".  The source
    reads [stdout] with [dict.get], so the key may be missing: [None]. *)
Record CommandResult : Type := mkCommandResult {
  success : bool;
  stdout : option string
}.

(** Modelled from the spec: "a mapping from status-field name to value",
    "iterated and printed key by key" in mapping order; names and values
    as the text that formatting them yields. *)
Definition AgentStatus : Type := list (string * string).

(** What a call can raise.  [Exception] stands for every instance of
    Python's [Exception] class, with [str(e)]; [OtherBaseException] for
    the rest of [BaseException] ([SystemExit], [GeneratorExit], ...),
    which neither handler of the loop names. *)
Inductive raised : Type :=
| KeyboardInterrupt
| Exception (message : string)
| OtherBaseException.

Inductive outcome (A : Type) : Type :=
| Returns (a : A)
| Raises (e : raised).
Arguments Returns {A} a.
Arguments Raises {A} e.

(** Calls made to collaborators, with their arguments. *)
Inductive call : Type :=
| Agent_execute_autonomous (task : string)
| Agent_get_status
| FileOps_create_file (name content : string)
| FileOps_read_file (name : string)
| CliOps_execute_command (command : string).

(** What the program did, oldest first: [print(text)], the prompt that
    [input(text)] writes, a call to a collaborator. *)
Inductive event : Type :=
| Stdout (text : string)
| Prompt (text : string)
| Invoked (c : call).

(** How one call of [input] ends: it returns a line (without its
    newline), or [KeyboardInterrupt] is raised in the read ([Interrupt]),
    or [EOFError] at the end of standard input ([EndOfFile]).  Which
    Ctrl-C at the terminal raises [KeyboardInterrupt] in a read is the
    runtime's business: see [reads_under_runner]. *)
Inductive input_event : Type :=
| Line (text : string)
| Interrupt
| EndOfFile.

(** How the body of [while True] ends. *)
Inductive loop_ctl : Type := Continue | Break.

(** Where the interactive loop is after a finite script of inputs:
    blocked in [input] for the next line, or left through [break]. *)
Inductive loop_state : Type := Awaiting_input | Stopped.

Record state (World : Type) : Type := mkState {
  world : World;
  running_loop : bool;
  transcript : list event
}.
Arguments mkState {World}.
Arguments world {World}.
Arguments running_loop {World}.
Arguments transcript {World}.

(** The collaborators' interfaces: each call may change the world and
    either returns or raises. *)
Module Agent.
Record t (World : Type) : Type := mk {
  execute_autonomous : string -> World -> outcome TaskResult * World;
  get_status : World -> outcome AgentStatus * World
}.
Arguments execute_autonomous {World}.
Arguments get_status {World}.
End Agent.

Module FileOps.
Record t (World : Type) : Type := mk {
  create_file : string -> string -> World -> outcome string * World;
  read_file : string -> World -> outcome string * World
}.
Arguments create_file {World}.
Arguments read_file {World}.
End FileOps.

Module CliOps.
Record t (World : Type) : Type := mk {
  execute_command : string -> World -> outcome CommandResult * World
}.
Arguments execute_command {World}.
End CliOps.

(** The object [SuperNjaguMain.__init__] builds ([web_ops] and [data_ops]
    are never used by the methods). *)
Record SuperNjaguMain (World : Type) : Type := mkSuperNjaguMain {
  workspace : string;
  agent : Agent.t World;
  file_ops : FileOps.t World;
  cli_ops : CliOps.t World
}.
Arguments workspace {World}.
Arguments agent {World}.
Arguments file_ops {World}.
Arguments cli_ops {World}.

(** ** Effects *)

Section Dispatcher.

Context {World : Type}.

(** A computation: from a state to what it returns or raises, and the
    state it leaves. *)
Definition M (A : Type) : Type := state World -> outcome A * state World.

#[global] Instance M_ret : MRet M := fun A a s => (Returns a, s).

#[global] Instance M_bind : MBind M := fun A B f m s =>
  match m s with
  | (Returns a, s') => f a s'
  | (Raises e, s') => (Raises e, s')
  end.

Definition raise {A : Type} (e : raised) : M A := fun s => (Raises e, s).

Definition emit (ev : event) : M unit := fun s =>
  (Returns tt, mkState (world s) (running_loop s) (transcript s ++ [ev])).

(** [print(text)] *)
Definition print (text : string) : M unit := emit (Stdout text).

(** A call to a collaborator: noted in the transcript, then run on the
    world. *)
Definition invoke {A : Type} (c : call)
    (method : World -> outcome A * World) : M A := fun s =>
  let r := method (world s) in
  (r.1, mkState r.2 (running_loop s) (transcript s ++ [Invoked c])).

(** [input(prompt)]: the prompt is written, then the read returns a line
    or raises [KeyboardInterrupt] or [EOFError]. *)
Definition input (prompt : string) (ev : input_event) : M string :=
  emit (Prompt prompt);;
  match ev with
  | Line text => mret text
  | Interrupt => raise KeyboardInterrupt
  | EndOfFile => raise (Exception "EOF when reading a line")
  end.

(** [a, b = l] *)
Definition unpack2 (l : list string) : M (string * string) :=
  match l with
  | [a; b] => mret (a, b)
  | [] | [_] =>
      raise (Exception ("not enough values to unpack (expected 2, got "
                        +:+ Str.of_nat (length l) +:+ ")"))
  | _ => raise (Exception "too many values to unpack (expected 2)")
  end.

(** [for x in l: body(x)] *)
Fixpoint for_each {A : Type} (l : list A) (body : A -> M unit) : M unit :=
  match l with
  | [] => mret tt
  | x :: l' => body x;; for_each l' body
  end.

(** [try: body  except ...], the handlers given as a partial function of
    what was raised: [None] where no [except] clause matches. *)
Definition try_except {A : Type} (body : M A)
    (handlers : raised -> option (M A)) : M A := fun s =>
  match body s with
  | (Returns a, s') => (Returns a, s')
  | (Raises e, s') =>
      match handlers e with
      | Some handler => handler s'
      | None => (Raises e, s')
      end
  end.

Definition set_running_loop (b : bool) (s : state World) : state World :=
  mkState (world s) b (transcript s).

(** [asyncio.run(coro)]: CPython first tests
    [events._get_running_loop() is not None] and raises [RuntimeError]
    there, before anything of the coroutine runs; otherwise the coroutine
    runs to its end on a new loop, which is closed afterwards.  What the
    runner does with Ctrl-C is kept apart, in [reads_under_runner] and
    [interactive_process]. *)
Definition asyncio_run {A : Type} (coro : M A) : M A := fun s =>
  if running_loop s
  then (Raises (Exception
          "asyncio.run() cannot be called from a running event loop"), s)
  else
    let r := coro (set_running_loop true s) in
    (r.1, set_running_loop false r.2).

(** ** [class SuperNjaguMain] *)

(** [SuperNjaguMain.run_task] *)
Definition run_task (self : SuperNjaguMain World)
    (task_description : string) : M TaskResult :=
  print (LF +:+ "🚀 SuperNjagu Agent - Starting Task");;
  print ("📋 Task: " +:+ task_description);;
  print ("🏢 Workspace: " +:+ workspace self);;
  print (Str.mul "-" 60);;
  result ← invoke (Agent_execute_autonomous task_description)
             (Agent.execute_autonomous (agent self) task_description);
  print (Str.mul "-" 60);;
  print ("✅ Task Status: " +:+ status result);;
  print ("📊 Steps Completed: " +:+ Str.of_nat (length (steps result)));;
  mret result.

(** [SuperNjaguMain.get_status] *)
Definition get_status (self : SuperNjaguMain World) : M AgentStatus :=
  invoke Agent_get_status (Agent.get_status (agent self)).

Definition help_text : string :=
  Str.join LF [
    "";
    "📚 SuperNjagu Agent Commands:";
    "";
    "🤖 Autonomous Tasks:";
    "  Any text input is treated as a task to be executed autonomously";
    "  Example: " +:+ DQ +:+ "Create a Python web scraper for news" +:+ DQ;
    "";
    "📁 File Operations:";
    "  create <content>     - Create a file with content";
    "  read <filename>      - Read file contents";
    "";
    "⚡ CLI Operations:";
    "  run <command>        - Execute shell command";
    "";
    "ℹ️  System Commands:";
    "  status               - Show agent status";
    "  help                 - Show this help";
    "  exit                 - Exit the agent";
    "";
    "💡 Tip: The agent will autonomously break down complex tasks,";
    "     execute them step by step, and report progress!";
    ""
  ].

(** [SuperNjaguMain._show_help] *)
Definition _show_help : M unit := print help_text.

Definition prompt_text : string := LF +:+ "🎯 SuperNjagu> ".

(** The statements inside [try:] of one turn of [while True], on what
    [input] yields this turn. *)
Definition try_body (self : SuperNjaguMain World) (ev : input_event)
    : M loop_ctl :=
  line ← input prompt_text ev;
  let user_input := Str.strip line in
  if negb (Str.truthy user_input) then
    mret Continue
  else if String.eqb (Str.lower user_input) "exit" then
    print "👋 Goodbye!";;
    mret Break
  else if String.eqb (Str.lower user_input) "help" then
    _show_help;;
    mret Continue
  else if String.eqb (Str.lower user_input) "status" then
    status ← get_status self;
    print (LF +:+ "📊 Agent Status:");;
    for_each status (fun '(key, value) =>
      print ("  " +:+ key +:+ ": " +:+ value));;
    mret Continue
  else if Str.startswith (Str.lower user_input) "create " then
    '(_, content) ← unpack2 (Str.split1 " " user_input);
    result ← invoke (FileOps_create_file "user_file.txt" content)
               (FileOps.create_file (file_ops self) "user_file.txt" content);
    print (LF +:+ "✅ " +:+ result);;
    mret Continue
  else if Str.startswith (Str.lower user_input) "read " then
    '(_, filename) ← unpack2 (Str.split1 " " user_input);
    result ← invoke (FileOps_read_file filename)
               (FileOps.read_file (file_ops self) filename);
    print (LF +:+ "📖 " +:+ result);;
    mret Continue
  else if Str.startswith (Str.lower user_input) "run " then
    '(_, command) ← unpack2 (Str.split1 " " user_input);
    result ← invoke (CliOps_execute_command command)
               (CliOps.execute_command (cli_ops self) command);
    print (LF +:+ "⚡ Command Result:");;
    print ("  Success: " +:+ Str.of_bool (success result));;
    match stdout result with
    | Some out =>
        if Str.truthy out
        then print ("  Output: " +:+ Str.slice_to 200 out +:+ "...")
        else mret tt
    | None => mret tt
    end;;
    mret Continue
  else
    result ← asyncio_run (run_task self user_input);
    print (LF +:+ "✨ Result: " +:+ final_result result);;
    mret Continue.

(** The two [except] clauses of the loop. *)
Definition handlers (e : raised) : option (M loop_ctl) :=
  match e with
  | KeyboardInterrupt =>
      Some (print (LF +:+ LF +:+ "👋 Interrupted. Type 'exit' to quit.");;
            mret Continue)
  | Exception message =>
      Some (print (LF +:+ "❌ Error: " +:+ message);;
            mret Continue)
  | OtherBaseException => None
  end.

(** One turn of [while True]. *)
Definition loop_body (self : SuperNjaguMain World) (ev : input_event)
    : M loop_ctl :=
  try_except (try_body self ev) handlers.

(** [while True: ...] along a script of inputs.  When the script is used
    up the loop has written its prompt and is blocked in [input]. *)
Fixpoint while_true (self : SuperNjaguMain World)
    (script : list input_event) : M loop_state :=
  match script with
  | [] => emit (Prompt prompt_text);; mret Awaiting_input
  | ev :: script' =>
      ctl ← loop_body self ev;
      match ctl with
      | Break => mret Stopped
      | Continue => while_true self script'
      end
  end.

(** [SuperNjaguMain.interactive_mode] *)
Definition interactive_mode (self : SuperNjaguMain World)
    (script : list input_event) : M loop_state :=
  print (LF +:+ "🤖 SuperNjagu Agent - Interactive Mode");;
  print "Type 'help' for commands, 'exit' to quit";;
  print (Str.mul "-" 60);;
  while_true self script.

(** ** The entry point *)

(** The collaborators as [SuperNjaguMain.__init__] constructs them from
    the workspace path. *)
Variable SuperNjaguAgent : string -> Agent.t World.
Variable FileOperations : string -> FileOps.t World.
Variable CLIOperations : string -> CliOps.t World.

(** [SuperNjaguMain(workspace)]; [main] relies on the default,
    [/workspace]. *)
Definition SuperNjaguMain_init (workspace : string) : SuperNjaguMain World :=
  mkSuperNjaguMain World workspace (SuperNjaguAgent workspace)
    (FileOperations workspace) (CLIOperations workspace).

Definition default_workspace : string := "/workspace".

(** [async def main()], on [sys.argv] and the script of inputs. *)
Definition main (argv : list string) (script : list input_event)
    : M loop_state :=
  if (1 <? length argv)%nat then
    let task := Str.join " " (tail argv) in
    let super_njagu := SuperNjaguMain_init default_workspace in
    run_task super_njagu task;;
    mret Stopped
  else
    let super_njagu := SuperNjaguMain_init default_workspace in
    interactive_mode super_njagu script.

(** The state the process starts in: no event loop runs, nothing has
    happened yet. *)
Definition initial (w : World) : state World := mkState w false [].

(** [if __name__ == "__main__": asyncio.run(main())] *)
Definition program (argv : list string) (script : list input_event)
    (w : World) : outcome loop_state * state World :=
  asyncio_run (main argv script) (initial w).

End Dispatcher.

(** ** Ctrl-C at the terminal, under [asyncio.run] *)

(** What happens at the terminal while the loop waits in [input]: a line
    is typed, Ctrl-C is pressed, or the input ends. *)
Inductive terminal_event : Type :=
| Typed (text : string)
| CtrlC
| EndOfInput.

(** How the reads of [input] end inside [asyncio.run], on CPython 3.11
    and later, where [asyncio.Runner] installs its own SIGINT handler
    ([_on_sigint]) for the time of the run; [interrupts] is the handler's
    count of the Ctrl-C seen so far.  On the first Ctrl-C the handler
    asks for the cancellation of the main task and returns: nothing is
    raised, the read goes on.  From the second on it raises
    [KeyboardInterrupt], which ends the read.  The result is the reads as
    they end, and the count.  (Before 3.11 there is no such handler and
    every Ctrl-C raises in the read.) *)
Fixpoint reads_under_runner (interrupts : nat)
    (session : list terminal_event) : list input_event * nat :=
  match session with
  | [] => ([], interrupts)
  | Typed text :: session' =>
      let r := reads_under_runner interrupts session' in
      (Line text :: r.1, r.2)
  | EndOfInput :: session' =>
      let r := reads_under_runner interrupts session' in
      (EndOfFile :: r.1, r.2)
  | CtrlC :: session' =>
      match interrupts with
      | O => reads_under_runner 1 session'
      | S _ =>
          let r := reads_under_runner (S interrupts) session' in
          (Interrupt :: r.1, r.2)
      end
  end.

Section Terminal.

Context {World : Type}.
Variable SuperNjaguAgent : string -> Agent.t World.
Variable FileOperations : string -> FileOps.t World.
Variable CLIOperations : string -> CliOps.t World.

(** The process started without arguments, at a terminal.  [main] never
    awaits in this mode, so the cancellation asked for by the first
    Ctrl-C reaches nothing while the loop runs; when [main] returns, its
    task ends cancelled and [asyncio.run] raises [KeyboardInterrupt]
    ([Runner.run], on a cancelled main task with [_interrupt_count > 0]). *)
Definition interactive_process (argv0 : string)
    (session : list terminal_event) (w : World)
    : outcome loop_state * state World :=
  let reads := reads_under_runner 0 session in
  let r := program SuperNjaguAgent FileOperations CLIOperations
             [argv0] reads.1 w in
  match r.1 with
  | Returns Stopped =>
      if (0 <? reads.2)%nat then (Raises KeyboardInterrupt, r.2) else r
  | _ => r
  end.

End Terminal.

(** No Ctrl-C in this part of a session. *)
Definition no_ctrl_c (session : list terminal_event) : bool :=
  forallb (fun ev => match ev with CtrlC => false | _ => true end) session.

(** ** Vocabulary of the statements *)

Inductive branch : Type :=
| On_blank | On_exit | On_help | On_status
| On_create | On_read | On_run | On_task.

(** The tests of the chain in [interactive_mode], in their order, on the
    stripped line. *)
Definition selected (user_input : string) : branch :=
  if negb (Str.truthy user_input) then On_blank
  else if String.eqb (Str.lower user_input) "exit" then On_exit
  else if String.eqb (Str.lower user_input) "help" then On_help
  else if String.eqb (Str.lower user_input) "status" then On_status
  else if Str.startswith (Str.lower user_input) "create " then On_create
  else if Str.startswith (Str.lower user_input) "read " then On_read
  else if Str.startswith (Str.lower user_input) "run " then On_run
  else On_task.

(** The tests seen on the lowered text alone. *)
Definition chain (x : string) : branch :=
  if negb (Str.truthy x) then On_blank
  else if String.eqb x "exit" then On_exit
  else if String.eqb x "help" then On_help
  else if String.eqb x "status" then On_status
  else if Str.startswith x "create " then On_create
  else if Str.startswith x "read " then On_read
  else if Str.startswith x "run " then On_run
  else On_task.

(** What the selected clause does: the bodies of the clauses of
    [try_body], one by one ([try_body_line] below shows that a turn is
    this, on the clause that the stripped line selects). *)
Definition dispatch {World : Type} (self : SuperNjaguMain World)
    (user_input : string) (b : branch) : M loop_ctl :=
  match b with
  | On_blank => mret Continue
  | On_exit => print "👋 Goodbye!";; mret Break
  | On_help => _show_help;; mret Continue
  | On_status =>
      status ← get_status self;
      print (LF +:+ "📊 Agent Status:");;
      for_each status (fun '(key, value) =>
        print ("  " +:+ key +:+ ": " +:+ value));;
      mret Continue
  | On_create =>
      '(_, content) ← unpack2 (Str.split1 " " user_input);
      result ← invoke (FileOps_create_file "user_file.txt" content)
                 (FileOps.create_file (file_ops self) "user_file.txt" content);
      print (LF +:+ "✅ " +:+ result);;
      mret Continue
  | On_read =>
      '(_, filename) ← unpack2 (Str.split1 " " user_input);
      result ← invoke (FileOps_read_file filename)
                 (FileOps.read_file (file_ops self) filename);
      print (LF +:+ "📖 " +:+ result);;
      mret Continue
  | On_run =>
      '(_, command) ← unpack2 (Str.split1 " " user_input);
      result ← invoke (CliOps_execute_command command)
                 (CliOps.execute_command (cli_ops self) command);
      print (LF +:+ "⚡ Command Result:");;
      print ("  Success: " +:+ Str.of_bool (success result));;
      match stdout result with
      | Some out =>
          if Str.truthy out
          then print ("  Output: " +:+ Str.slice_to 200 out +:+ "...")
          else mret tt
      | None => mret tt
      end;;
      mret Continue
  | On_task =>
      result ← asyncio_run (run_task self user_input);
      print (LF +:+ "✨ Result: " +:+ final_result result);;
      mret Continue
  end.

(** The state with more events at the end of its transcript. *)
Definition logged {World : Type} (s : state World) (evs : list event)
    : state World :=
  mkState (world s) (running_loop s) (transcript s ++ evs).

(** The state after a call: the world the call leaves, the transcript
    with more events at its end. *)
Definition called {World : Type} (s : state World) (w : World)
    (evs : list event)
    : state World :=
  mkState w (running_loop s) (transcript s ++ evs).

(** What the two [except] clauses make of a raise that reaches them. *)
Definition caught {World : Type} (e : raised) (s : state World)
    : outcome loop_ctl * state World :=
  match e with
  | KeyboardInterrupt =>
      (Returns Continue,
       logged s [Stdout (LF +:+ LF +:+ "👋 Interrupted. Type 'exit' to quit.")])
  | Exception message =>
      (Returns Continue, logged s [Stdout (LF +:+ "❌ Error: " +:+ message)])
  | OtherBaseException => (Raises OtherBaseException, s)
  end.

(** The line that reports [stdout], when there is one. *)
Definition output_report (result : CommandResult) : list event :=
  match stdout result with
  | Some out =>
      if Str.truthy out
      then [Stdout ("  Output: " +:+ Str.slice_to 200 out +:+ "...")]
      else []
  | None => []
  end.

(** One line of the status report. *)
Definition status_line (entry : string * string) : string :=
  "  " +:+ entry.1 +:+ ": " +:+ entry.2.

(** What [run_task] prints before and after the agent's call. *)
Definition banner {World : Type} (self : SuperNjaguMain World)
    (task : string) : list event :=
  [Stdout (LF +:+ "🚀 SuperNjagu Agent - Starting Task");
   Stdout ("📋 Task: " +:+ task);
   Stdout ("🏢 Workspace: " +:+ workspace self);
   Stdout (Str.mul "-" 60)].

Definition summary (result : TaskResult) : list event :=
  [Stdout (Str.mul "-" 60);
   Stdout ("✅ Task Status: " +:+ status result);
   Stdout ("📊 Steps Completed: " +:+ Str.of_nat (length (steps result)))].

(** What [asyncio.run] says when an event loop is already running. *)
Definition nested_run_message : string :=
  "asyncio.run() cannot be called from a running event loop".

(** What [interactive_mode] prints before its loop. *)
Definition greeting : list event :=
  [Stdout (LF +:+ "🤖 SuperNjagu Agent - Interactive Mode");
   Stdout "Type 'help' for commands, 'exit' to quit";
   Stdout (Str.mul "-" 60)].

(** The calls to collaborators in a transcript, in their order. *)
Definition calls (t : list event) : list call :=
  omap (fun ev => match ev with Invoked c => Some c | _ => None end) t.

(** The input [exit], in any casing, with whitespace around it or not. *)
Definition is_exit (ev : input_event) : bool :=
  match ev with
  | Line l => String.eqb (Str.lower (Str.strip l)) "exit"
  | Interrupt | EndOfFile => false
  end.

(** The collaborators never raise outside [Exception] and
    [KeyboardInterrupt]. *)
Definition raises_only_caught {World : Type} (self : SuperNjaguMain World)
    : Prop :=
  (forall task w,
     (Agent.execute_autonomous (agent self) task w).1
     <> Raises OtherBaseException)
  /\ (forall w,
        (Agent.get_status (agent self) w).1 <> Raises OtherBaseException)
  /\ (forall name content w,
        (FileOps.create_file (file_ops self) name content w).1
        <> Raises OtherBaseException)
  /\ (forall name w,
        (FileOps.read_file (file_ops self) name w).1
        <> Raises OtherBaseException)
  /\ (forall command w,
        (CliOps.execute_command (cli_ops self) command w).1
        <> Raises OtherBaseException).

(** The prompts written in a transcript, counted. *)
Definition prompts (t : list event) : nat :=
  length (List.filter
            (fun ev => match ev with Prompt _ => true | _ => false end) t).

(** The tasks given to the agent's [execute_autonomous] in a transcript,
    in their order. *)
Definition agent_tasks (t : list event) : list string :=
  omap (fun ev => match ev with
                  | Invoked (Agent_execute_autonomous task) => Some task
                  | _ => None
                  end) t.



(** ** Collaborators to run the dispatcher on *)

Module Mock.

(** The files of the workspace, by name. *)
Abbreviation World := (gmap string string).

(** Modelled from the spec: the file operations ([tools/file_operations.py])
    are not part of the sources.  "[create_file(name: string, content:
    string) → outcome message]", a second create of a name "overwrites"
    it; "[read_file(name: string) → outcome message]". *)
Definition FileOperations (workspace : string) : FileOps.t World :=
  FileOps.mk World
    (fun name content files =>
       (Returns ("Created " +:+ name), <[name := content]> files))
    (fun name files =>
       (match files !! name with
        | Some content => Returns content
        | None => Raises (Exception ("No such file: " +:+ name))
        end, files)).

(** Modelled from the spec: the agent ([src/agent.py]) is not part of the
    sources.  "[execute_autonomous(task: string) → TaskResult]",
    "[get_status() → AgentStatus]". *)
Definition SuperNjaguAgent (workspace : string) : Agent.t World :=
  Agent.mk World
    (fun task files =>
       (Returns (mkTaskResult "completed" ["plan"; "execute"] ("Done: " +:+ task)),
        files))
    (fun files => (Returns [("state", "idle"); ("workspace", workspace)], files)).

(** An agent whose every call raises an error. *)
Definition BrokenAgent (workspace : string) : Agent.t World :=
  Agent.mk World
    (fun task files => (Raises (Exception "agent unavailable"), files))
    (fun files => (Raises (Exception "agent unavailable"), files)).

(** Modelled from the spec: the shell operations
    ([tools/cli_operations.py]) are not part of the sources.
    "[execute_command(command: string) → CommandResult]"; this one
    answers as the spec's example does, [{success: true, stdout: hi}]. *)
Definition CLIOperations (workspace : string) : CliOps.t World :=
  CliOps.mk World
    (fun command files => (Returns (mkCommandResult true (Some "hi")), files)).

Definition super_njagu : SuperNjaguMain World :=
  SuperNjaguMain_init SuperNjaguAgent FileOperations CLIOperations
    default_workspace.

Definition broken : SuperNjaguMain World :=
  SuperNjaguMain_init BrokenAgent FileOperations CLIOperations
    default_workspace.

(** File operations on a workspace that cannot be written or read. *)
Definition LockedFiles (workspace : string) : FileOps.t World :=
  FileOps.mk World
    (fun name content files => (Raises (Exception "workspace is locked"), files))
    (fun name files => (Raises (Exception "workspace is locked"), files)).

Definition locked : SuperNjaguMain World :=
  SuperNjaguMain_init SuperNjaguAgent LockedFiles CLIOperations
    default_workspace.

(** Shell operations whose every call raises [KeyboardInterrupt]. *)
Definition InterruptedCLI (workspace : string) : CliOps.t World :=
  CliOps.mk World (fun command files => (Raises KeyboardInterrupt, files)).

Definition interrupted : SuperNjaguMain World :=
  SuperNjaguMain_init SuperNjaguAgent FileOperations InterruptedCLI
    default_workspace.

(** A state inside the interactive loop of the process, and one of a
    caller that runs no event loop. *)
Definition in_process : state World := mkState ∅ true [].
Definition standalone : state World := mkState ∅ false [].

End Mock.

(** * Properties *)

(** ** Facts about the string operations *)

Module StrFacts.
Import Str.

Lemma append_cons (c : ascii) (a b : string) :
  String c a +:+ b = String c (a +:+ b).
Proof. reflexivity. Qed.

Lemma append_nil_l (b : string) : "" +:+ b = b.
Proof. reflexivity. Qed.

Ltac push_append := rewrite ?append_cons, ?append_nil_l.
Tactic Notation "push_append" "in" hyp(H) :=
  rewrite ?append_cons, ?append_nil_l in H.

Lemma lower_char_space_inv (c : ascii) :
  lower_char c = " "%char -> c = " "%char.
Proof.
  destruct c as [[] [] [] [] [] [] [] []]; vm_compute; congruence.
Qed.

Lemma no_space_lower (w : string) :
  no_space (lower w) = true -> no_space w = true.
Proof.
  induction w as [|c w IH]; simpl; [reflexivity|].
  intros H. apply andb_true_iff in H as [Hc Hw].
  rewrite IH by exact Hw. rewrite andb_true_r.
  destruct (Ascii.eqb_spec c " ") as [->|]; [discriminate Hc | reflexivity].
Qed.

(** [split(' ', 1)] cuts at the first space. *)
Lemma split1_first_space (w rest : string) :
  no_space w = true -> split1 " " (w +:+ " " +:+ rest) = [w; rest].
Proof.
  change (" " +:+ rest) with (String " " rest).
  induction w as [|c w IH]; push_append; simpl; [reflexivity|].
  intros H. apply andb_true_iff in H as [Hc Hw].
  destruct (Ascii.eqb c " "); [discriminate Hc|].
  now rewrite (IH Hw).
Qed.

(** A line whose lowered text starts with a space-free word and a space
    is that word in some casing, a space, and a remainder. *)
Lemma startswith_word (p u : string) :
  startswith (lower u) (p +:+ " ") = true ->
  exists w rest, u = w +:+ " " +:+ rest /\ lower w = p.
Proof.
  revert u.
  induction p as [|a p IH]; intros u H; push_append in H;
    destruct u as [|c u]; cbn [startswith lower] in H;
    try discriminate H; apply andb_true_iff in H as [Hc H];
    apply Ascii.eqb_eq in Hc.
  - exists "", u. split; [|reflexivity].
    push_append. now rewrite (lower_char_space_inv c (eq_sym Hc)).
  - destruct (IH u H) as (w & rest & -> & Hw).
    exists (String c w), rest. split; [reflexivity|].
    simpl. now rewrite Hw, Hc.
Qed.

Lemma split1_startswith (p u : string) :
  no_space p = true ->
  startswith (lower u) (p +:+ " ") = true ->
  exists w rest,
    u = w +:+ " " +:+ rest /\ lower w = p /\ no_space w = true
    /\ split1 " " u = [w; rest].
Proof.
  intros Hp H. destruct (startswith_word p u H) as (w & rest & -> & Hw).
  assert (Hns : no_space w = true) by (apply no_space_lower; now rewrite Hw).
  exists w, rest. repeat split; try assumption.
  now apply split1_first_space.
Qed.

Lemma lstrip_decomp (s : string) :
  exists lead, s = lead +:+ lstrip s /\ all_space lead = true
               /\ starts_nonspace (lstrip s).
Proof.
  induction s as [|c s (lead & E & Hl & Hf)]; simpl.
  - exists "". repeat split.
  - destruct (isspace c) eqn:Hc.
    + exists (String c lead). simpl. rewrite Hc, Hl. repeat split; [|exact Hf].
      push_append. now rewrite <- E.
    + exists "". repeat split. exact Hc.
Qed.

Lemma rstrip_decomp (s : string) :
  exists trail, s = rstrip s +:+ trail /\ all_space trail = true
                /\ ends_nonspace (rstrip s).
Proof.
  unfold ends_nonspace.
  induction s as [|c s (trail & E & Ht & Hl)]; simpl.
  - exists "". repeat split.
  - destruct (rstrip s) as [|d r] eqn:Hr.
    + push_append in E. destruct (isspace c) eqn:Hc.
      * subst trail. exists (String c s). simpl. rewrite Hc, Ht. repeat split.
      * subst trail. exists s. push_append. simpl. repeat split; assumption.
    + exists trail. push_append. rewrite E at 1. push_append.
      repeat split; assumption.
Qed.

Lemma rstrip_first (s : string) :
  rstrip s <> "" -> first (rstrip s) = first s.
Proof.
  destruct s as [|c s]; simpl; [congruence|].
  destruct (rstrip s); [destruct (isspace c)|]; simpl; congruence.
Qed.

Lemma strip_decomp (s : string) :
  exists lead trail,
    s = lead +:+ strip s +:+ trail
    /\ all_space lead = true /\ all_space trail = true
    /\ starts_nonspace (strip s) /\ ends_nonspace (strip s).
Proof.
  unfold strip.
  destruct (lstrip_decomp s) as (lead & E1 & Hl & Hf).
  destruct (rstrip_decomp (lstrip s)) as (trail & E2 & Ht & He).
  exists lead, trail. repeat split; try assumption.
  - now rewrite <- E2.
  - unfold starts_nonspace in *.
    destruct (string_dec (rstrip (lstrip s)) "") as [->|Hne]; [exact I|].
    now rewrite rstrip_first.
Qed.

Lemma lstrip_all_space (s : string) : all_space s = true -> lstrip s = "".
Proof.
  induction s as [|c s IH]; simpl; [reflexivity|].
  intros H. apply andb_true_iff in H as [Hc Hs].
  now rewrite Hc, (IH Hs).
Qed.

Lemma all_space_append (a b : string) :
  all_space (a +:+ b) = all_space a && all_space b.
Proof.
  induction a as [|x a IH]; push_append; simpl; [reflexivity|].
  now rewrite IH, andb_assoc.
Qed.

(** A line strips to nothing exactly when all of it is whitespace. *)
Lemma strip_empty_iff (s : string) : strip s = "" <-> all_space s = true.
Proof.
  split.
  - intros H. destruct (strip_decomp s) as (lead & trail & E & Hl & Ht & _).
    rewrite H in E. rewrite E, all_space_append. push_append.
    now rewrite Hl, Ht.
  - intros H. unfold strip. now rewrite (lstrip_all_space s H).
Qed.

Lemma last_append_cons (a : string) (c : ascii) (b : string) :
  last (a +:+ String c b) = last (String c b).
Proof.
  induction a as [|x a IH]; [reflexivity|].
  push_append. cbn [last]. rewrite IH.
  destruct (a +:+ String c b) eqn:E; [|reflexivity].
  destruct a; discriminate E.
Qed.

(** The remainder after the command word of a stripped line is not empty
    and ends as the line does. *)
Lemma remainder_of_stripped (w rest : string) :
  ends_nonspace (w +:+ " " +:+ rest) ->
  rest <> "" /\ ends_nonspace rest.
Proof.
  unfold ends_nonspace. push_append. rewrite last_append_cons.
  destruct rest as [|c rest].
  - simpl. discriminate.
  - intros H. split; [discriminate | exact H].
Qed.

Lemma truthy_true (s : string) : truthy s = true <-> s <> "".
Proof.
  unfold truthy. destruct (String.eqb_spec s ""); split; simpl;
    congruence.
Qed.

Lemma slice_to_prefix (n : nat) (s : string) :
  exists tail, s = slice_to n s +:+ tail
               /\ String.length (slice_to n s) = Nat.min n (String.length s).
Proof.
  unfold slice_to. revert s.
  induction n as [|n IH]; intros s.
  - exists s. destruct s; split; reflexivity.
  - destruct s as [|c s]; simpl.
    + exists "". split; reflexivity.
    + destruct (IH s) as (tail & E & L). exists tail. push_append.
      rewrite L. split; [now rewrite <- E | reflexivity].
Qed.

Lemma slice_to_short (n : nat) (s : string) :
  String.length s <= n -> slice_to n s = s.
Proof.
  unfold slice_to. revert s.
  induction n as [|n IH]; intros [|c s]; simpl; intros H;
    try reflexivity; try lia.
  rewrite IH by lia. reflexivity.
Qed.

Lemma rstrip_all_space (s : string) : all_space s = true -> rstrip s = "".
Proof.
  induction s as [|c s IH]; simpl; [reflexivity|].
  intros H. apply andb_true_iff in H as [Hc Hs].
  now rewrite (IH Hs), Hc.
Qed.

Lemma lstrip_lead (lead x : string) :
  all_space lead = true -> lstrip (lead +:+ x) = lstrip x.
Proof.
  induction lead as [|c lead IH]; push_append; [reflexivity|].
  simpl. intros H. apply andb_true_iff in H as [Hc Hs].
  now rewrite Hc, (IH Hs).
Qed.

Lemma rstrip_trail (x trail : string) :
  all_space trail = true -> rstrip (x +:+ trail) = rstrip x.
Proof.
  intros H. induction x as [|c x IH]; push_append.
  - now apply rstrip_all_space.
  - cbn [rstrip]. now rewrite IH.
Qed.

(** Whitespace around a line does not change what it strips to. *)
Lemma strip_surrounded (lead l trail : string) :
  all_space lead = true -> all_space trail = true ->
  strip (lead +:+ l +:+ trail) = strip l.
Proof.
  intros Hl Ht. unfold strip. rewrite (lstrip_lead lead _ Hl).
  induction l as [|c l IH]; push_append.
  - now rewrite (lstrip_all_space trail Ht).
  - cbn [lstrip]. destruct (isspace c); [exact IH|].
    rewrite <- append_cons. now apply rstrip_trail.
Qed.

Lemma lower_append (a b : string) : lower (a +:+ b) = lower a +:+ lower b.
Proof.
  induction a as [|x a IH]; push_append; simpl; [reflexivity|].
  push_append. now rewrite IH.
Qed.

Lemma isspace_lower_char (c : ascii) :
  isspace (lower_char c) = false -> isspace c = false.
Proof.
  destruct c as [[] [] [] [] [] [] [] []]; vm_compute; congruence.
Qed.

Lemma no_space_append_space (w rest : string) :
  no_space (w +:+ " " +:+ rest) = false.
Proof.
  change (" " +:+ rest) with (String " " rest).
  induction w as [|c w IH]; push_append; [reflexivity|].
  cbn [no_space]. rewrite IH. apply andb_false_r.
Qed.

Lemma lstrip_id (x : string) : starts_nonspace x -> lstrip x = x.
Proof.
  destruct x as [|c x]; [reflexivity|].
  unfold starts_nonspace. cbn [first lstrip]. now intros ->.
Qed.

Lemma rstrip_id (x : string) : ends_nonspace x -> rstrip x = x.
Proof.
  unfold ends_nonspace.
  induction x as [|c x IH]; [reflexivity|].
  destruct x as [|d x].
  - cbn. now intros ->.
  - intros H. assert (Hy : rstrip (String d x) = String d x) by exact (IH H).
    remember (String d x) as y eqn:Ey. cbn [rstrip]. rewrite Hy, Ey.
    reflexivity.
Qed.

Lemma startswith_append (p a b : string) :
  startswith b a = true -> startswith (p +:+ b) (p +:+ a) = true.
Proof.
  intros H. induction p as [|c p IH]; push_append; [exact H|].
  cbn [startswith]. now rewrite Ascii.eqb_refl, IH.
Qed.

Lemma startswith_lower_space (x : string) :
  startswith (lower (" " +:+ x)) " " = true.
Proof. destruct x; reflexivity. Qed.

(** A text with no whitespace at either end strips to itself. *)
Lemma strip_id (x : string) :
  starts_nonspace x -> ends_nonspace x -> strip x = x.
Proof.
  intros Hs He. unfold strip. rewrite (lstrip_id x Hs). now apply rstrip_id.
Qed.

End StrFacts.

Module Selected.
Import Str StrFacts.

Lemma lower_empty (u : string) : lower u = "" -> u = "".
Proof. destruct u; [reflexivity | discriminate]. Qed.

Lemma truthy_lower (u : string) : truthy (lower u) = truthy u.
Proof. destruct u; reflexivity. Qed.

Ltac split_tests H :=
  repeat match type of H with
         | (_ && _) = true => let Hc := fresh "Hc" in
                              apply andb_true_iff in H as [Hc H];
                              apply Ascii.eqb_eq in Hc; subst
         end.

Lemma selected_chain (u : string) : selected u = chain (lower u).
Proof. unfold selected, chain. now rewrite truthy_lower. Qed.

Lemma chain_create (x : string) :
  startswith x "create " = true -> chain x = On_create.
Proof.
  intros H. destruct x as [|a x]; cbn [startswith] in H; [discriminate H|].
  split_tests H. unfold chain. cbn. now rewrite H.
Qed.

Lemma chain_read (x : string) :
  startswith x "read " = true -> chain x = On_read.
Proof.
  intros H. destruct x as [|a x]; cbn [startswith] in H; [discriminate H|].
  split_tests H. unfold chain. cbn. now rewrite H.
Qed.

Lemma chain_run (x : string) :
  startswith x "run " = true -> chain x = On_run.
Proof.
  intros H. destruct x as [|a x]; cbn [startswith] in H; [discriminate H|].
  apply andb_true_iff in H as [Ha H]. apply Ascii.eqb_eq in Ha. subst a.
  destruct x as [|b x]; cbn [startswith] in H; [discriminate H|].
  split_tests H. unfold chain. cbn. now rewrite H.
Qed.

Lemma chain_task (x : string) :
  x <> "" -> x <> "exit" -> x <> "help" -> x <> "status" ->
  startswith x "create " = false -> startswith x "read " = false ->
  startswith x "run " = false ->
  chain x = On_task.
Proof.
  intros H0 H1 H2 H3 H4 H5 H6. unfold chain.
  apply truthy_true in H0. apply String.eqb_neq in H1, H2, H3.
  now rewrite H0, H1, H2, H3, H4, H5, H6.
Qed.

Lemma chain_exit (x : string) : chain x = On_exit <-> x = "exit".
Proof.
  unfold chain. split.
  - destruct (negb (truthy x)); [discriminate|].
    destruct (String.eqb_spec x "exit"); [tauto|].
    repeat match goal with |- context [if ?b then _ else _] => destruct b end;
      discriminate.
  - intros ->. reflexivity.
Qed.

Lemma chain_blank (x : string) : chain x = On_blank <-> x = "".
Proof.
  unfold chain. split.
  - destruct x; [reflexivity|]. cbn [truthy negb String.eqb].
    repeat match goal with |- context [if ?b then _ else _] => destruct b end;
      discriminate.
  - intros ->. reflexivity.
Qed.

Lemma selected_blank (u : string) : selected u = On_blank <-> u = "".
Proof.
  rewrite selected_chain, chain_blank. split; [apply lower_empty|].
  intros ->. reflexivity.
Qed.

End Selected.

(** ** One turn of the loop, clause by clause *)

(** Runs the effect layer on the state at hand. *)
Ltac exec :=
  unfold loop_body, try_body, dispatch, handlers, _show_help, get_status,
    asyncio_run, run_task, try_except, input, print, emit, invoke, raise,
    unpack2, set_running_loop, logged, mbind, M_bind, mret, M_ret;
  cbn [fst snd world running_loop transcript];
  rewrite <- ?app_assoc; cbn [app].


Section Turn.

Context {World : Type}.
Variable self : SuperNjaguMain World.

(** The turn is the prompt, then the clause that the stripped line
    selects. *)
Lemma try_body_line (l : string) (s : state World) :
  try_body self (Line l) s
  = dispatch self (Str.strip l) (selected (Str.strip l))
      (logged s [Prompt prompt_text]).
Proof.
  unfold try_body, selected, dispatch, input, emit, logged.
  unfold mbind, M_bind, mret, M_ret. cbn [fst snd].
  generalize (Str.strip l) as u. intros u.
  repeat match goal with
         | |- context [if ?b then _ else _] => destruct b
         end; reflexivity.
Qed.

Lemma try_except_raises (body : M loop_ctl) (s s' : state World) (e : raised) :
  body s = (Raises e, s') -> try_except body handlers s = caught e s'.
Proof. unfold try_except. intros ->. now destruct e. Qed.

Lemma logged_logged (s : state World) (a b : list event) :
  logged (logged s a) b = logged s (a ++ b).
Proof. exec. reflexivity. Qed.

Lemma loop_body_line (l : string) (s : state World) :
  loop_body self (Line l) s
  = try_except (dispatch self (Str.strip l) (selected (Str.strip l))) handlers
      (logged s [Prompt prompt_text]).
Proof.
  unfold loop_body, try_except. now rewrite try_body_line.
Qed.

(** [KeyboardInterrupt] and [EOFError] raised in the read. *)
Lemma loop_body_interrupt (s : state World) :
  loop_body self Interrupt s
  = (Returns Continue,
     logged s [Prompt prompt_text;
               Stdout (LF +:+ LF +:+ "👋 Interrupted. Type 'exit' to quit.")]).
Proof. exec. reflexivity. Qed.

Lemma loop_body_eof (s : state World) :
  loop_body self EndOfFile s
  = (Returns Continue,
     logged s [Prompt prompt_text;
               Stdout (LF +:+ "❌ Error: EOF when reading a line")]).
Proof. exec. reflexivity. Qed.

Lemma loop_body_blank (l : string) (s : state World) :
  selected (Str.strip l) = On_blank ->
  loop_body self (Line l) s = (Returns Continue, logged s [Prompt prompt_text]).
Proof. intros H. rewrite loop_body_line, H. reflexivity. Qed.

Lemma loop_body_exit (l : string) (s : state World) :
  selected (Str.strip l) = On_exit ->
  loop_body self (Line l) s
  = (Returns Break, logged s [Prompt prompt_text; Stdout "👋 Goodbye!"]).
Proof.
  intros H. rewrite loop_body_line, H. exec. reflexivity.
Qed.

Lemma loop_body_help (l : string) (s : state World) :
  selected (Str.strip l) = On_help ->
  loop_body self (Line l) s
  = (Returns Continue, logged s [Prompt prompt_text; Stdout help_text]).
Proof.
  intros H. rewrite loop_body_line, H. exec. reflexivity.
Qed.

Lemma loop_body_create (l word content : string) (s : state World) :
  selected (Str.strip l) = On_create ->
  Str.split1 " " (Str.strip l) = [word; content] ->
  loop_body self (Line l) s
  = let r := FileOps.create_file (file_ops self) "user_file.txt" content
               (world s) in
    let s1 := called s r.2 [Prompt prompt_text;
                Invoked (FileOps_create_file "user_file.txt" content)] in
    match r.1 with
    | Returns result =>
        (Returns Continue, logged s1 [Stdout (LF +:+ "✅ " +:+ result)])
    | Raises e => caught e s1
    end.
Proof.
  intros H Hs. rewrite loop_body_line, H. exec. rewrite Hs.
  unfold called, caught.
  destruct (FileOps.create_file _ _ _ _) as [[result|[]] w']; exec;
    reflexivity.
Qed.

Lemma loop_body_read (l word filename : string) (s : state World) :
  selected (Str.strip l) = On_read ->
  Str.split1 " " (Str.strip l) = [word; filename] ->
  loop_body self (Line l) s
  = let r := FileOps.read_file (file_ops self) filename (world s) in
    let s1 := called s r.2 [Prompt prompt_text;
                Invoked (FileOps_read_file filename)] in
    match r.1 with
    | Returns result =>
        (Returns Continue, logged s1 [Stdout (LF +:+ "📖 " +:+ result)])
    | Raises e => caught e s1
    end.
Proof.
  intros H Hs. rewrite loop_body_line, H. exec. rewrite Hs.
  unfold called, caught.
  destruct (FileOps.read_file _ _ _) as [[result|[]] w']; exec;
    reflexivity.
Qed.

Lemma loop_body_run (l word command : string) (s : state World) :
  selected (Str.strip l) = On_run ->
  Str.split1 " " (Str.strip l) = [word; command] ->
  loop_body self (Line l) s
  = let r := CliOps.execute_command (cli_ops self) command (world s) in
    let s1 := called s r.2 [Prompt prompt_text;
                Invoked (CliOps_execute_command command)] in
    match r.1 with
    | Returns result =>
        (Returns Continue,
         logged s1 ([Stdout (LF +:+ "⚡ Command Result:");
                     Stdout ("  Success: " +:+ Str.of_bool (success result))]
                    ++ output_report result))
    | Raises e => caught e s1
    end.
Proof.
  intros H Hs. rewrite loop_body_line, H. exec. rewrite Hs.
  unfold called, caught, output_report.
  destruct (CliOps.execute_command _ _ _) as [[result|[]] w']; exec;
    try reflexivity.
  destruct (stdout result) as [out|]; [destruct (Str.truthy out)|]; exec;
    reflexivity.
Qed.

Lemma for_each_print {A : Type} (render : A -> string) (body : A -> M unit)
    (l : list A) (s : state World) :
  (forall x s, body x s = (Returns tt, logged s [Stdout (render x)])) ->
  for_each l body s
  = (Returns tt, logged s (map (fun x => Stdout (render x)) l)).
Proof.
  intros Hbody. revert s. induction l as [|x l IH]; intros s.
  - unfold logged. cbn. rewrite app_nil_r. now destruct s.
  - cbn [for_each map]. unfold mbind, M_bind. rewrite Hbody, IH.
    now rewrite logged_logged.
Qed.

Lemma loop_body_status (l : string) (s : state World) :
  selected (Str.strip l) = On_status ->
  loop_body self (Line l) s
  = let r := Agent.get_status (agent self) (world s) in
    let s1 := called s r.2 [Prompt prompt_text; Invoked Agent_get_status] in
    match r.1 with
    | Returns status =>
        (Returns Continue,
         logged s1 (Stdout (LF +:+ "📊 Agent Status:")
                    :: map (fun entry => Stdout (status_line entry)) status))
    | Raises e => caught e s1
    end.
Proof.
  intros H. rewrite loop_body_line, H.
  unfold dispatch, try_except, get_status, called, caught.
  unfold mbind at 1. unfold M_bind at 1.
  unfold invoke at 1. cbn [fst snd world running_loop transcript logged].
  destruct (Agent.get_status _ _) as [[status|[]] w']; cbn [fst snd];
    try (exec; reflexivity).
  unfold mbind, M_bind. unfold print at 1, emit at 1.
  rewrite (for_each_print status_line).
  - unfold mret, M_ret. exec. reflexivity.
  - intros [key value] s0. reflexivity.
Qed.

Lemma run_task_run (task : string) (s : state World) :
  run_task self task s
  = let r := Agent.execute_autonomous (agent self) task (world s) in
    let s1 := called s r.2
                (banner self task ++ [Invoked (Agent_execute_autonomous task)]) in
    match r.1 with
    | Returns result => (Returns result, logged s1 (summary result))
    | Raises e => (Raises e, s1)
    end.
Proof.
  unfold called, banner, summary. exec.
  destruct (Agent.execute_autonomous _ _ _) as [[result|e] w']; exec;
    reflexivity.
Qed.

Lemma loop_body_task (l : string) (s : state World) :
  selected (Str.strip l) = On_task ->
  loop_body self (Line l) s
  = if running_loop s then
      (Returns Continue,
       logged s [Prompt prompt_text;
                 Stdout (LF +:+ "❌ Error: " +:+ nested_run_message)])
    else
      let task := Str.strip l in
      let r := Agent.execute_autonomous (agent self) task (world s) in
      let s1 := called s r.2
                  (Prompt prompt_text :: banner self task
                   ++ [Invoked (Agent_execute_autonomous task)]) in
      match r.1 with
      | Returns result =>
          (Returns Continue,
           logged s1 (summary result
                      ++ [Stdout (LF +:+ "✨ Result: "
                                  +:+ final_result result)]))
      | Raises e => caught e s1
      end.
Proof.
  intros H. rewrite loop_body_line, H.
  unfold dispatch, try_except, asyncio_run.
  unfold mbind at 1. unfold M_bind at 1.
  cbn [logged running_loop].
  destruct (running_loop s) eqn:Hrun.
  - exec. reflexivity.
  - rewrite run_task_run. unfold called, caught, banner, summary.
    cbn [set_running_loop world running_loop transcript logged fst snd].
    destruct (Agent.execute_autonomous _ _ _) as [[result|[]] w']; exec;
      rewrite ?Hrun; reflexivity.
Qed.

End Turn.

(** ** The loop along a script *)

Lemma calls_app (t1 t2 : list event) : calls (t1 ++ t2) = calls t1 ++ calls t2.
Proof. apply omap_app. Qed.

Lemma selected_cases (u : string) :
  match selected u with
  | On_blank => u = ""
  | On_exit => Str.lower u = "exit"
  | On_help => Str.lower u = "help"
  | On_status => Str.lower u = "status"
  | On_create =>
      exists word content,
        u = word +:+ " " +:+ content /\ Str.lower word = "create"
        /\ Str.no_space word = true
        /\ Str.split1 " " u = [word; content]
  | On_read =>
      exists word filename,
        u = word +:+ " " +:+ filename /\ Str.lower word = "read"
        /\ Str.no_space word = true
        /\ Str.split1 " " u = [word; filename]
  | On_run =>
      exists word command,
        u = word +:+ " " +:+ command /\ Str.lower word = "run"
        /\ Str.no_space word = true
        /\ Str.split1 " " u = [word; command]
  | On_task => True
  end.
Proof.
  unfold selected.
  destruct (Str.truthy u) eqn:H0; cbn [negb].
  2:{ unfold Str.truthy in H0. apply negb_false_iff in H0.
      now apply String.eqb_eq in H0. }
  destruct (String.eqb_spec (Str.lower u) "exit"); [assumption|].
  destruct (String.eqb_spec (Str.lower u) "help"); [assumption|].
  destruct (String.eqb_spec (Str.lower u) "status"); [assumption|].
  destruct (Str.startswith (Str.lower u) "create ") eqn:H4.
  { now apply (StrFacts.split1_startswith "create"). }
  destruct (Str.startswith (Str.lower u) "read ") eqn:H5.
  { now apply (StrFacts.split1_startswith "read"). }
  destruct (Str.startswith (Str.lower u) "run ") eqn:H6.
  { now apply (StrFacts.split1_startswith "run"). }
  exact I.
Qed.

Lemma selected_exit_iff (u : string) :
  selected u = On_exit <-> Str.lower u = "exit".
Proof.
  rewrite Selected.selected_chain. apply Selected.chain_exit.
Qed.

Section Loop.

Context {World : Type}.
Variable self : SuperNjaguMain World.

Lemma while_true_cons (ev : input_event) (script : list input_event)
    (s : state World) :
  while_true self (ev :: script) s
  = match loop_body self ev s with
    | (Returns Continue, s') => while_true self script s'
    | (Returns Break, s') => (Returns Stopped, s')
    | (Raises e, s') => (Raises e, s')
    end.
Proof.
  cbn [while_true]. unfold mbind, M_bind.
  destruct (loop_body self ev s) as [[[]|e] s']; reflexivity.
Qed.

(** Every turn ends in one of three ways: on to the next turn, out
    through [break], or a raise that neither [except] clause names. *)
Lemma loop_body_outcome (ev : input_event) (s : state World) :
  (loop_body self ev s).1 = Returns Continue
  \/ (loop_body self ev s).1 = Returns Break
  \/ (loop_body self ev s).1 = Raises OtherBaseException.
Proof.
  unfold loop_body, try_except.
  destruct (try_body self ev s) as [[[]|[]] s']; cbn; auto.
Qed.

End Loop.

(** ** The process *)

Section Process.

Context {World : Type}.
Variable SuperNjaguAgent : string -> Agent.t World.
Variable FileOperations : string -> FileOps.t World.
Variable CLIOperations : string -> CliOps.t World.

Abbreviation the_program := (program SuperNjaguAgent FileOperations CLIOperations).
Abbreviation super_njagu :=
  (SuperNjaguMain_init SuperNjaguAgent FileOperations CLIOperations
     default_workspace).

(** With arguments: one task, run once. *)
Lemma program_with_arguments (argv0 a : string) (args : list string)
    (script : list input_event) (w : World) :
  the_program (argv0 :: a :: args) script w
  = let task := Str.join " " (a :: args) in
    let r := Agent.execute_autonomous (agent super_njagu) task w in
    let t := banner super_njagu task ++ [Invoked (Agent_execute_autonomous task)] in
    match r.1 with
    | Returns result =>
        (Returns Stopped, mkState r.2 false (t ++ summary result))
    | Raises e => (Raises e, mkState r.2 false t)
    end.
Proof.
  unfold program, asyncio_run, main, initial.
  cbn [running_loop length Nat.ltb Nat.leb tail].
  unfold mbind, M_bind. rewrite run_task_run.
  unfold called, logged, set_running_loop, mret, M_ret.
  cbn [world running_loop transcript fst snd app].
  destruct (Agent.execute_autonomous _ _ _) as [[result|e] w'];
    cbn [fst snd world running_loop transcript]; rewrite <- ?app_assoc;
    reflexivity.
Qed.

(** Without arguments: the interactive loop, entered while the event
    loop of [asyncio.run(main())] is running. *)
Lemma program_without_arguments (argv0 : string)
    (script : list input_event) (w : World) :
  the_program [argv0] script w
  = let r := while_true super_njagu script (mkState w true greeting) in
    (r.1, set_running_loop false r.2).
Proof.
  unfold program, asyncio_run, main, initial, interactive_mode.
  cbn [running_loop length Nat.ltb Nat.leb].
  unfold mbind, M_bind, print, emit, set_running_loop.
  cbn [world running_loop transcript fst snd app]. reflexivity.
Qed.

End Process.

(** ** The three commands with a payload *)

Section Payload.

Context {World : Type}.
Variable self : SuperNjaguMain World.

Lemma create_turn (l : string) :
  Str.startswith (Str.lower (Str.strip l)) "create " = true ->
  exists word content,
    Str.strip l = word +:+ " " +:+ content
    /\ Str.lower word = "create" /\ Str.no_space word = true
    /\ Str.split1 " " (Str.strip l) = [word; content]
    /\ forall s : state World,
       loop_body self (Line l) s
       = let r := FileOps.create_file (file_ops self) "user_file.txt" content
                    (world s) in
         let s1 := called s r.2 [Prompt prompt_text;
                     Invoked (FileOps_create_file "user_file.txt" content)] in
         match r.1 with
         | Returns result =>
             (Returns Continue, logged s1 [Stdout (LF +:+ "✅ " +:+ result)])
         | Raises e => caught e s1
         end.
Proof.
  intros H.
  assert (Hsel : selected (Str.strip l) = On_create)
    by (rewrite Selected.selected_chain; now apply Selected.chain_create).
  pose proof (selected_cases (Str.strip l)) as Hc. rewrite Hsel in Hc.
  destruct Hc as (word & content & E & Hw & Hns & Hsp).
  exists word, content. repeat split; try assumption.
  intros s. now apply loop_body_create with (word := word).
Qed.

Lemma read_turn (l : string) :
  Str.startswith (Str.lower (Str.strip l)) "read " = true ->
  exists word filename,
    Str.strip l = word +:+ " " +:+ filename
    /\ Str.lower word = "read" /\ Str.no_space word = true
    /\ Str.split1 " " (Str.strip l) = [word; filename]
    /\ forall s : state World,
       loop_body self (Line l) s
       = let r := FileOps.read_file (file_ops self) filename (world s) in
         let s1 := called s r.2 [Prompt prompt_text;
                     Invoked (FileOps_read_file filename)] in
         match r.1 with
         | Returns result =>
             (Returns Continue, logged s1 [Stdout (LF +:+ "📖 " +:+ result)])
         | Raises e => caught e s1
         end.
Proof.
  intros H.
  assert (Hsel : selected (Str.strip l) = On_read)
    by (rewrite Selected.selected_chain; now apply Selected.chain_read).
  pose proof (selected_cases (Str.strip l)) as Hc. rewrite Hsel in Hc.
  destruct Hc as (word & filename & E & Hw & Hns & Hsp).
  exists word, filename. repeat split; try assumption.
  intros s. now apply loop_body_read with (word := word).
Qed.

Lemma run_turn (l : string) :
  Str.startswith (Str.lower (Str.strip l)) "run " = true ->
  exists word command,
    Str.strip l = word +:+ " " +:+ command
    /\ Str.lower word = "run" /\ Str.no_space word = true
    /\ Str.split1 " " (Str.strip l) = [word; command]
    /\ forall s : state World,
       loop_body self (Line l) s
       = let r := CliOps.execute_command (cli_ops self) command (world s) in
         let s1 := called s r.2 [Prompt prompt_text;
                     Invoked (CliOps_execute_command command)] in
         match r.1 with
         | Returns result =>
             (Returns Continue,
              logged s1
                ([Stdout (LF +:+ "⚡ Command Result:");
                  Stdout ("  Success: " +:+ Str.of_bool (success result))]
                 ++ output_report result))
         | Raises e => caught e s1
         end.
Proof.
  intros H.
  assert (Hsel : selected (Str.strip l) = On_run)
    by (rewrite Selected.selected_chain; now apply Selected.chain_run).
  pose proof (selected_cases (Str.strip l)) as Hc. rewrite Hsel in Hc.
  destruct Hc as (word & command & E & Hw & Hns & Hsp).
  exists word, command. repeat split; try assumption.
  intros s. now apply loop_body_run with (word := word).
Qed.

(** Whatever a handler does with a raise, it makes no call. *)
Lemma calls_caught (e : raised) (s : state World) :
  calls (transcript (caught e s).2) = calls (transcript s).
Proof.
  destruct e; cbn; rewrite ?calls_app; cbn; now rewrite ?app_nil_r.
Qed.

End Payload.

Ltac solve_calls :=
  cbn zeta;
  match goal with
  | |- context [match (?m).1 with _ => _ end] =>
      destruct m as [[?result|?e] ?w']
  end;
  cbn [fst snd]; rewrite ?calls_caught; unfold logged, called;
  cbn [transcript]; rewrite ?calls_app; cbn [calls omap app];
  rewrite ?app_nil_r; reflexivity.

Lemma calls_output_report (result : CommandResult) :
  calls (output_report result) = [].
Proof.
  unfold output_report. destruct (stdout result) as [[|c out]|]; reflexivity.
Qed.

(** The one call of a [run] turn. *)
Lemma run_turn_calls {World : Type} (self : SuperNjaguMain World)
    (l : string) (s : state World) :
  Str.startswith (Str.lower (Str.strip l)) "run " = true ->
  exists word command,
    Str.strip l = word +:+ " " +:+ command
    /\ Str.no_space word = true
    /\ calls (transcript (loop_body self (Line l) s).2)
       = calls (transcript s) ++ [CliOps_execute_command command].
Proof.
  intros H.
  destruct (run_turn self l H) as (word & command & E & _ & Hn & _ & R).
  exists word, command. repeat split; try assumption.
  rewrite R. cbn zeta.
  destruct (CliOps.execute_command _ _ _) as [[result|e] w'];
    cbn [fst snd]; rewrite ?calls_caught; unfold logged, called;
    cbn [transcript]; rewrite ?calls_app, ?calls_output_report;
    cbn [calls omap app]; now rewrite ?app_nil_r.
Qed.

(** ** What every turn has in common *)

(** Splits a turn on a line by the clause the line selects. *)
Tactic Notation "line_cases" constr(self) constr(l) constr(s) :=
  let Hsel := fresh "Hsel" in
  let Hc := fresh "Hc" in
  let word := fresh "word" in
  let rest := fresh "rest" in
  let Hsp := fresh "Hsp" in
  destruct (selected (Str.strip l)) eqn:Hsel;
  pose proof (selected_cases (Str.strip l)) as Hc; rewrite Hsel in Hc;
  [ rewrite (loop_body_blank self l s Hsel)
  | rewrite (loop_body_exit self l s Hsel)
  | rewrite (loop_body_help self l s Hsel)
  | rewrite (loop_body_status self l s Hsel)
  | destruct Hc as (word & rest & _ & _ & _ & Hsp);
    rewrite (loop_body_create self l word rest s Hsel Hsp)
  | destruct Hc as (word & rest & _ & _ & _ & Hsp);
    rewrite (loop_body_read self l word rest s Hsel Hsp)
  | destruct Hc as (word & rest & _ & _ & _ & Hsp);
    rewrite (loop_body_run self l word rest s Hsel Hsp)
  | rewrite (loop_body_task self l s Hsel) ];
  cbn zeta.

(** Splits on what the call of the turn did. *)
Ltac call_cases :=
  repeat match goal with
         | |- context [if running_loop ?s then _ else _] =>
             let Hrun := fresh "Hrun" in destruct (running_loop s) eqn:Hrun
         | |- context [match (?m).1 with _ => _ end] =>
             let Hcall := fresh "Hcall" in
             destruct m as [[?result|[]] ?w'] eqn:Hcall; cbn [fst snd]
         end;
  unfold caught, logged, called;
  cbn [fst snd transcript world running_loop].

Section Shape.

Context {World : Type}.
Variable self : SuperNjaguMain World.

(** Every turn starts by writing the prompt, only adds to the transcript,
    and leaves asyncio's running-loop flag as it found it. *)
Lemma loop_body_shape (ev : input_event) (s : state World) :
  (exists rest,
     transcript (loop_body self ev s).2
     = transcript s ++ Prompt prompt_text :: rest)
  /\ running_loop (loop_body self ev s).2 = running_loop s.
Proof.
  destruct ev as [l| |].
  - line_cases self l s; call_cases;
      (split; [eexists; rewrite <- ?app_assoc; reflexivity
              | congruence]).
  - rewrite loop_body_interrupt. split; [eexists|]; reflexivity.
  - rewrite loop_body_eof. split; [eexists|]; reflexivity.
Qed.

(** A turn ends in [break] on the input [exit] and on nothing else. *)
Lemma loop_body_break_iff (ev : input_event) (s : state World) :
  (loop_body self ev s).1 = Returns Break <-> is_exit ev = true.
Proof.
  destruct ev as [l| |]; cbn [is_exit].
  - rewrite String.eqb_eq, <- selected_exit_iff.
    line_cases self l s; call_cases; split; congruence.
  - rewrite loop_body_interrupt. split; discriminate.
  - rewrite loop_body_eof. split; discriminate.
Qed.

(** With such collaborators no turn raises. *)
Lemma loop_body_returns (ev : input_event) (s : state World) :
  raises_only_caught self ->
  exists ctl, (loop_body self ev s).1 = Returns ctl.
Proof.
  intros (Ha & Hg & Hc & Hr & Hx).
  destruct ev as [l| |].
  - line_cases self l s; call_cases; eauto;
      exfalso;
      match goal with
      | H : ?m = (Raises OtherBaseException, _) |- _ =>
          apply (f_equal fst) in H; cbn [fst] in H;
          first [ exact (Ha _ _ H) | exact (Hg _ H) | exact (Hc _ _ _ H)
                | exact (Hr _ _ H) | exact (Hx _ _ H) ]
      end.
  - rewrite loop_body_interrupt. eauto.
  - rewrite loop_body_eof. eauto.
Qed.

End Shape.

(** ** The loop as a whole *)

Section Whole.

Context {World : Type}.
Variable self : SuperNjaguMain World.

(** The loop only adds to the transcript. *)
Lemma while_true_extends (script : list input_event) (s : state World) :
  exists rest, transcript (while_true self script s).2 = transcript s ++ rest.
Proof.
  revert s. induction script as [|ev script IH]; intros s.
  - exists [Prompt prompt_text]. reflexivity.
  - rewrite while_true_cons.
    destruct (loop_body_shape self ev s) as [(rest & Hrest) _].
    destruct (loop_body self ev s) as [[[]|e] s1]; cbn [snd] in Hrest |- *;
      try (eexists; exact Hrest).
    destruct (IH s1) as (rest' & Hrest').
    rewrite Hrest', Hrest, <- app_assoc. eexists. reflexivity.
Qed.

(** Whatever the script, the first thing the loop does is to prompt. *)
Lemma while_true_prompts (script : list input_event) (s : state World) :
  exists rest,
    transcript (while_true self script s).2
    = transcript s ++ Prompt prompt_text :: rest.
Proof.
  destruct script as [|ev script].
  - exists []. reflexivity.
  - rewrite while_true_cons.
    destruct (loop_body_shape self ev s) as [(rest & Hrest) _].
    destruct (loop_body self ev s) as [[[]|e] s1]; cbn [snd] in Hrest |- *;
      try (eexists; exact Hrest).
    destruct (while_true_extends script s1) as (rest' & Hrest').
    rewrite Hrest', Hrest, <- app_assoc. cbn [app]. eexists. reflexivity.
Qed.

(** The loop is left through [break] only after an [exit]. *)
Lemma while_true_stopped (script : list input_event) (s : state World) :
  (while_true self script s).1 = Returns Stopped ->
  existsb is_exit script = true.
Proof.
  revert s. induction script as [|ev script IH]; intros s.
  - exec. discriminate.
  - rewrite while_true_cons. cbn [existsb].
    pose proof (loop_body_break_iff self ev s) as Hb.
    destruct (loop_body self ev s) as [[[]|e] s1]; cbn [fst] in Hb |- *.
    + intros H. rewrite (IH s1 H). apply orb_true_r.
    + intros _. now rewrite (proj1 Hb eq_refl).
    + discriminate.
Qed.

(** The loop never lets an [Exception] or a [KeyboardInterrupt] out. *)
Lemma while_true_outcome (script : list input_event) (s : state World) :
  (while_true self script s).1 = Returns Awaiting_input
  \/ (while_true self script s).1 = Returns Stopped
  \/ (while_true self script s).1 = Raises OtherBaseException.
Proof.
  revert s. induction script as [|ev script IH]; intros s.
  - left. exec. reflexivity.
  - rewrite while_true_cons.
    pose proof (loop_body_outcome self ev s) as Ho.
    destruct (loop_body self ev s) as [[[]|e] s1]; cbn [fst] in Ho |- *.
    + apply IH.
    + auto.
    + destruct Ho as [Ho|[Ho|Ho]]; try discriminate Ho.
      injection Ho as ->. auto.
Qed.

(** With collaborators that raise only what the loop catches, the loop
    is stopped exactly when the script holds an [exit], and awaits
    input otherwise. *)
Lemma while_true_returns (script : list input_event) (s : state World) :
  raises_only_caught self ->
  (while_true self script s).1
  = Returns (if existsb is_exit script then Stopped else Awaiting_input).
Proof.
  intros Hself. revert s.
  induction script as [|ev script IH]; intros s.
  - exec. reflexivity.
  - rewrite while_true_cons. cbn [existsb].
    pose proof (loop_body_break_iff self ev s) as Hb.
    destruct (loop_body_returns self ev s Hself) as (ctl & Hret).
    destruct (loop_body self ev s) as [[[]|e] s1]; cbn [fst] in Hb, Hret |- *.
    + destruct (is_exit ev); [destruct Hb as [_ Hb]; discriminate (Hb eq_refl)|].
      apply IH.
    + now rewrite (proj1 Hb eq_refl).
    + discriminate Hret.
Qed.

End Whole.

(** The payload of a stripped line is not empty and ends in something
    other than whitespace. *)
Lemma payload_of_stripped (l word payload : string) :
  Str.strip l = word +:+ " " +:+ payload ->
  payload <> "" /\ Str.ends_nonspace payload.
Proof.
  intros E.
  destruct (StrFacts.strip_decomp l) as (_ & _ & _ & _ & _ & _ & He).
  rewrite E in He. now apply StrFacts.remainder_of_stripped with (w := word).
Qed.

Lemma loop_body_surrounded {World : Type} (self : SuperNjaguMain World)
    (lead l trail : string) (s : state World) :
  Str.all_space lead = true -> Str.all_space trail = true ->
  loop_body self (Line (lead +:+ l +:+ trail)) s = loop_body self (Line l) s.
Proof.
  intros Hl Ht.
  now rewrite !loop_body_line, (StrFacts.strip_surrounded lead l trail Hl Ht).
Qed.

Lemma mock_raises_only_caught : raises_only_caught Mock.super_njagu.
Proof.
  repeat split; intros; cbn; try discriminate.
  destruct (_ !! _); discriminate.
Qed.

(** The same line given to [interactive_mode] by a caller that runs no
    event loop does reach the agent, with the stripped line as the task. *)
Lemma task_line_outside_event_loop {World : Type} (self : SuperNjaguMain World)
    (l : string) (s : state World) (result : TaskResult) (w' : World) :
  selected (Str.strip l) = On_task ->
  running_loop s = false ->
  Agent.execute_autonomous (agent self) (Str.strip l) (world s)
  = (Returns result, w') ->
  loop_body self (Line l) s
  = (Returns Continue,
     called s w'
       (Prompt prompt_text :: banner self (Str.strip l)
        ++ [Invoked (Agent_execute_autonomous (Str.strip l))]
        ++ summary result
        ++ [Stdout (LF +:+ "✨ Result: " +:+ final_result result)])).
Proof.
  intros Hsel Hrun Hcall. rewrite (loop_body_task _ _ _ Hsel), Hrun.
  cbn zeta. rewrite Hcall. unfold called, logged.
  cbn [fst snd world running_loop transcript]. rewrite <- !app_assoc.
  reflexivity.
Qed.

Example task_line_standalone :
  calls (transcript
    (loop_body Mock.super_njagu (Line " build a calculator ")
       Mock.standalone).2)
  = [Agent_execute_autonomous "build a calculator"].
Proof. vm_compute. reflexivity. Qed.

(** The loop as a machine with one state, awaiting input, and one way
    out.  A turn ends in [break] exactly on the input [exit]; every other
    turn (a blank line, [help], [status], [create], [read], [run], a
    task, a read in which [KeyboardInterrupt] is raised, an error that
    was caught) goes back to awaiting input.  Along a script the loop is
    stopped only if the script holds an [exit]; with collaborators that
    raise nothing but [Exception] and [KeyboardInterrupt] it is stopped
    exactly then, and awaits input otherwise. *)
Lemma loop_state_machine {World : Type} (self : SuperNjaguMain World) :
  (forall ev s, (loop_body self ev s).1 = Returns Break <-> is_exit ev = true)
  /\ (forall ev s,
        (loop_body self ev s).1 = Returns Continue
        \/ (loop_body self ev s).1 = Returns Break
        \/ (loop_body self ev s).1 = Raises OtherBaseException)
  /\ (forall s,
        loop_body self Interrupt s
        = (Returns Continue,
           logged s [Prompt prompt_text;
                     Stdout (LF +:+ LF
                             +:+ "👋 Interrupted. Type 'exit' to quit.")]))
  /\ (forall script s,
        (while_true self script s).1 = Returns Stopped ->
        existsb is_exit script = true)
  /\ (raises_only_caught self ->
      (forall ev s,
         is_exit ev = false -> (loop_body self ev s).1 = Returns Continue)
      /\ (forall script s,
            (while_true self script s).1
            = Returns (if existsb is_exit script
                       then Stopped else Awaiting_input))).
Proof.
  split; [apply loop_body_break_iff|].
  split; [apply loop_body_outcome|].
  split; [apply loop_body_interrupt|].
  split; [apply while_true_stopped|].
  intros Hself. split; [|intros script s; now apply while_true_returns].
  intros ev s Hne.
  destruct (loop_body_returns self ev s Hself) as ([] & Hret);
    [exact Hret|].
  apply loop_body_break_iff in Hret. congruence.
Qed.

Example loop_state_machine_example :
  (while_true Mock.super_njagu
     [Line " "; Line "help"; Interrupt; Line "read nothing"; EndOfFile;
      Line "do something"; Line "EXIT"; Line "status"]
     Mock.in_process).1 = Returns Stopped
  /\ (while_true Mock.super_njagu
        [Line " "; Line "help"; Interrupt; Line "read nothing"; EndOfFile;
         Line "do something"; Line "exit now"; Line "status"]
        Mock.in_process).1 = Returns Awaiting_input.
Proof.
  destruct (loop_state_machine Mock.super_njagu) as (_ & _ & _ & _ & H).
  destruct (H mock_raises_only_caught) as [_ Hloop].
  split; apply Hloop.
Qed.

(** ** The first Ctrl-C under [asyncio.run] *)

(** Without a Ctrl-C the reads are the typed lines and the ends of input
    in their order, and the handler's count stays as it was. *)
Lemma reads_without_ctrl_c (session : list terminal_event) (n : nat) :
  no_ctrl_c session = true ->
  reads_under_runner n session = ((reads_under_runner 0 session).1, n).
Proof.
  induction session as [|[text| |] session IH]; cbn [no_ctrl_c forallb];
    intros H; try discriminate H; cbn [reads_under_runner].
  - reflexivity.
  - rewrite (IH H). reflexivity.
  - rewrite (IH H). reflexivity.
Qed.

Lemma reads_app (before rest : list terminal_event) (n : nat) :
  no_ctrl_c before = true ->
  reads_under_runner n (before ++ rest)
  = ((reads_under_runner 0 before).1 ++ (reads_under_runner n rest).1,
     (reads_under_runner n rest).2).
Proof.
  induction before as [|[text| |] before IH]; cbn [no_ctrl_c forallb];
    intros H; try discriminate H; cbn [reads_under_runner app].
  - now destruct (reads_under_runner n rest).
  - rewrite (IH H). reflexivity.
  - rewrite (IH H). reflexivity.
Qed.

(** * The claims *)

(** C1 (what the code does on a task line).  In the process started
    without arguments, a line that is not blank, not [exit], [help] or
    [status] in any casing and has none of the prefixes [create ], [read ],
    [run ] selects the last clause of the chain, yet the agent is not
    called: [asyncio.run] refuses to start inside the event loop that
    already runs [main], the loop prints that error and prompts again.
    The world is left as it was and the transcript holds no call. *)
Theorem C1_task_line_stops_at_asyncio_run {World : Type}
    (SuperNjaguAgent : string -> Agent.t World)
    (FileOperations : string -> FileOps.t World)
    (CLIOperations : string -> CliOps.t World)
    (argv0 l : string) (w : World) :
  Str.strip l <> "" ->
  Str.lower (Str.strip l) <> "exit" ->
  Str.lower (Str.strip l) <> "help" ->
  Str.lower (Str.strip l) <> "status" ->
  Str.startswith (Str.lower (Str.strip l)) "create " = false ->
  Str.startswith (Str.lower (Str.strip l)) "read " = false ->
  Str.startswith (Str.lower (Str.strip l)) "run " = false ->
  selected (Str.strip l) = On_task
  /\ program SuperNjaguAgent FileOperations CLIOperations [argv0] [Line l] w
     = (Returns Awaiting_input,
        mkState w false
          (greeting
           ++ [Prompt prompt_text;
               Stdout (LF +:+ "❌ Error: "
                       +:+ "asyncio.run() cannot be called from a running event loop");
               Prompt prompt_text]))
  /\ calls (transcript
       (program SuperNjaguAgent FileOperations CLIOperations
          [argv0] [Line l] w).2) = [].
Proof.
  intros H0 H1 H2 H3 H4 H5 H6.
  assert (Hsel : selected (Str.strip l) = On_task).
  { rewrite Selected.selected_chain. apply Selected.chain_task; try assumption.
    intros E. apply H0. now apply Selected.lower_empty. }
  assert (Hrun : program SuperNjaguAgent FileOperations CLIOperations
                   [argv0] [Line l] w
                 = (Returns Awaiting_input,
                    mkState w false
                      (greeting
                       ++ [Prompt prompt_text;
                           Stdout (LF +:+ "❌ Error: " +:+ nested_run_message);
                           Prompt prompt_text]))).
  { rewrite program_without_arguments, while_true_cons.
    rewrite (loop_body_task _ _ _ Hsel). cbn [running_loop while_true].
    exec. reflexivity. }
  split; [exact Hsel|]. split; [exact Hrun|].
  rewrite Hrun. reflexivity.
Qed.

Lemma C1_task_line_stops_at_asyncio_run_witness :
  selected (Str.strip "build a calculator") = On_task
  /\ program Mock.SuperNjaguAgent Mock.FileOperations Mock.CLIOperations
       ["main.py"] [Line "build a calculator"] ∅
     = (Returns Awaiting_input,
        mkState ∅ false
          (greeting
           ++ [Prompt prompt_text;
               Stdout (LF +:+ "❌ Error: "
                       +:+ "asyncio.run() cannot be called from a running event loop");
               Prompt prompt_text]))
  /\ calls (transcript
       (program Mock.SuperNjaguAgent Mock.FileOperations Mock.CLIOperations
          ["main.py"] [Line "build a calculator"] ∅).2) = [].
Proof.
  apply (C1_task_line_stops_at_asyncio_run Mock.SuperNjaguAgent
           Mock.FileOperations Mock.CLIOperations "main.py"
           "build a calculator" ∅);
    vm_compute; congruence.
Defined.

(** C2.  Started with one or more arguments, the process joins them with
    single spaces into one task string and calls the agent's
    [execute_autonomous] exactly once, with that string; when the agent
    returns, the status and the step count of its result are printed and
    the process ends.  For the arguments [build], [a], [calculator] the
    task is [build a calculator]. *)
Theorem C2_arguments_run_one_task {World : Type}
    (SuperNjaguAgent : string -> Agent.t World)
    (FileOperations : string -> FileOps.t World)
    (CLIOperations : string -> CliOps.t World)
    (argv0 a : string) (args : list string) (script : list input_event)
    (w w' : World) (result : TaskResult) :
  let task := Str.join " " (a :: args) in
  let run := program SuperNjaguAgent FileOperations CLIOperations
               (argv0 :: a :: args) script w in
  Agent.execute_autonomous (SuperNjaguAgent "/workspace") task w
  = (Returns result, w') ->
  run = (Returns Stopped,
         mkState w' false
           ([Stdout (LF +:+ "🚀 SuperNjagu Agent - Starting Task");
             Stdout ("📋 Task: " +:+ task);
             Stdout ("🏢 Workspace: " +:+ "/workspace");
             Stdout (Str.mul "-" 60);
             Invoked (Agent_execute_autonomous task);
             Stdout (Str.mul "-" 60);
             Stdout ("✅ Task Status: " +:+ status result);
             Stdout ("📊 Steps Completed: "
                     +:+ Str.of_nat (length (steps result)))]))
  /\ calls (transcript run.2) = [Agent_execute_autonomous task]
  /\ (a :: args = ["build"; "a"; "calculator"] -> task = "build a calculator").
Proof.
  intros task run Hcall.
  assert (Hrun : run = (Returns Stopped,
         mkState w' false
           ([Stdout (LF +:+ "🚀 SuperNjagu Agent - Starting Task");
             Stdout ("📋 Task: " +:+ task);
             Stdout ("🏢 Workspace: " +:+ "/workspace");
             Stdout (Str.mul "-" 60);
             Invoked (Agent_execute_autonomous task);
             Stdout (Str.mul "-" 60);
             Stdout ("✅ Task Status: " +:+ status result);
             Stdout ("📊 Steps Completed: "
                     +:+ Str.of_nat (length (steps result)))]))).
  { unfold run. rewrite program_with_arguments. cbn zeta.
    unfold SuperNjaguMain_init, default_workspace. cbn [agent].
    fold task. rewrite Hcall. reflexivity. }
  split; [exact Hrun|]. split.
  - rewrite Hrun. reflexivity.
  - intros E. unfold task. rewrite E. reflexivity.
Qed.

Lemma C2_arguments_run_one_task_witness :
  let run := program Mock.SuperNjaguAgent Mock.FileOperations
               Mock.CLIOperations
               ["main.py"; "build"; "a"; "calculator"] [] ∅ in
  calls (transcript run.2) = [Agent_execute_autonomous "build a calculator"].
Proof.
  pose proof (C2_arguments_run_one_task Mock.SuperNjaguAgent
                Mock.FileOperations Mock.CLIOperations
                "main.py" "build" ["a"; "calculator"] [] ∅ ∅
                (mkTaskResult "completed" ["plan"; "execute"]
                   "Done: build a calculator") eq_refl) as (_ & H & _).
  exact H.
Defined.

(** C3.  A line that starts with [create ] in any casing is cut at its
    first space only; all that follows is the content, and [create_file]
    is called with the file name [user_file.txt] whatever the content.
    Two [create] lines in a row, with different contents, make two calls
    on that one name. *)
Theorem C3_create_fixed_filename {World : Type} (self : SuperNjaguMain World)
    (l1 l2 : string) (s : state World) :
  Str.startswith (Str.lower (Str.strip l1)) "create " = true ->
  Str.startswith (Str.lower (Str.strip l2)) "create " = true ->
  exists word1 content1 word2 content2,
    (Str.strip l1 = word1 +:+ " " +:+ content1
     /\ Str.no_space word1 = true)
    /\ (Str.strip l2 = word2 +:+ " " +:+ content2
        /\ Str.no_space word2 = true)
    /\ (forall s1 : state World,
          calls (transcript (loop_body self (Line l1) s1).2)
          = calls (transcript s1)
            ++ [FileOps_create_file "user_file.txt" content1])
    /\ (forall s2 : state World,
          calls (transcript (loop_body self (Line l2) s2).2)
          = calls (transcript s2)
            ++ [FileOps_create_file "user_file.txt" content2])
    /\ ((loop_body self (Line l1) s).1 = Returns Continue ->
        calls (transcript (while_true self [Line l1; Line l2] s).2)
        = calls (transcript s)
          ++ [FileOps_create_file "user_file.txt" content1;
              FileOps_create_file "user_file.txt" content2]).
Proof.
  intros H1 H2.
  destruct (create_turn self l1 H1) as (word1 & content1 & E1 & _ & Hn1 & _ & R1).
  destruct (create_turn self l2 H2) as (word2 & content2 & E2 & _ & Hn2 & _ & R2).
  assert (T1 : forall s1,
    calls (transcript (loop_body self (Line l1) s1).2)
    = calls (transcript s1) ++ [FileOps_create_file "user_file.txt" content1]).
  { intros s1. rewrite R1. solve_calls. }
  assert (T2 : forall s2,
    calls (transcript (loop_body self (Line l2) s2).2)
    = calls (transcript s2) ++ [FileOps_create_file "user_file.txt" content2]).
  { intros s2. rewrite R2. solve_calls. }
  exists word1, content1, word2, content2.
  repeat split; try assumption.
  intros Hgo. rewrite while_true_cons.
  specialize (T1 s).
  destruct (loop_body self (Line l1) s) as [[[]|e] s'] eqn:Eb;
    cbn [fst snd] in Hgo, T1; try discriminate Hgo.
  rewrite while_true_cons. specialize (T2 s').
  destruct (loop_body self (Line l2) s') as [[[]|e] s''] eqn:Eb2;
    cbn [fst snd while_true] in T2 |- *.
  - exec. rewrite calls_app, T2, T1. cbn [calls omap].
    now rewrite ?app_nil_r, <- ?app_assoc.
  - now rewrite T2, T1, <- ?app_assoc.
  - now rewrite T2, T1, <- ?app_assoc.
Qed.

Lemma C3_create_fixed_filename_witness :
  exists content1 content2,
    calls (transcript
      (while_true Mock.super_njagu
         [Line "create hello world"; Line "CREATE  second draft "]
         Mock.in_process).2)
    = calls (transcript Mock.in_process)
      ++ [FileOps_create_file "user_file.txt" content1;
          FileOps_create_file "user_file.txt" content2].
Proof.
  destruct (C3_create_fixed_filename Mock.super_njagu
              "create hello world" "CREATE  second draft " Mock.in_process
              eq_refl eq_refl)
    as (word1 & content1 & word2 & content2 & _ & _ & _ & _ & H).
  exists content1, content2. apply H. reflexivity.
Defined.

(** With files kept by name, the second [create] replaces what the first
    one wrote: one file is left, holding the second content. *)
Example create_twice_overwrites :
  let run := while_true Mock.super_njagu
               [Line "create hello world"; Line "create second draft"]
               Mock.in_process in
  calls (transcript run.2)
  = [FileOps_create_file "user_file.txt" "hello world";
     FileOps_create_file "user_file.txt" "second draft"]
  /\ map_to_list (world run.2) = [("user_file.txt", "second draft")].
Proof. split; vm_compute; reflexivity. Qed.

(** C4.  A line that starts with [run ] in any casing is cut at its
    first space and all that follows is the command given to
    [execute_command].  When the call returns, the loop prints the
    [success] flag and then, exactly when [stdout] is there and not
    empty, one more line: the first 200 characters of [stdout] followed
    by three dots.  The dots are printed for a short [stdout] too: a
    [stdout] of at most 200 characters is printed whole with the dots
    after it, as for [hi]. *)
Theorem C4_run_reports_output {World : Type} (self : SuperNjaguMain World)
    (l : string) (s : state World) :
  Str.startswith (Str.lower (Str.strip l)) "run " = true ->
  exists word command,
    Str.strip l = word +:+ " " +:+ command
    /\ Str.no_space word = true
    /\ calls (transcript (loop_body self (Line l) s).2)
       = calls (transcript s) ++ [CliOps_execute_command command]
    /\ (forall (result : CommandResult) (w' : World),
          CliOps.execute_command (cli_ops self) command (world s)
          = (Returns result, w') ->
          loop_body self (Line l) s
          = (Returns Continue,
             called s w'
               ([Prompt prompt_text;
                 Invoked (CliOps_execute_command command);
                 Stdout (LF +:+ "⚡ Command Result:");
                 Stdout ("  Success: " +:+ Str.of_bool (success result))]
                ++ match stdout result with
                   | Some (String c out) =>
                       [Stdout ("  Output: "
                                +:+ Str.slice_to 200 (String c out)
                                +:+ "...")]
                   | Some EmptyString | None => []
                   end)))
    /\ (forall out : string,
          (exists rest, out = Str.slice_to 200 out +:+ rest)
          /\ String.length (Str.slice_to 200 out)
             = Nat.min 200 (String.length out)
          /\ (String.length out <= 200 ->
              "  Output: " +:+ Str.slice_to 200 out +:+ "..."
              = "  Output: " +:+ out +:+ "..."))
    /\ "  Output: " +:+ Str.slice_to 200 "hi" +:+ "..." = "  Output: hi...".
Proof.
  intros H.
  destruct (run_turn self l H) as (word & command & E & Hw & Hn & _ & R).
  exists word, command. repeat split; try assumption.
  - rewrite R. cbn zeta.
    destruct (CliOps.execute_command _ _ _) as [[result|e] w'];
      cbn [fst snd]; rewrite ?calls_caught; unfold logged, called;
      cbn [transcript]; rewrite ?calls_app, ?calls_output_report;
      cbn [calls omap app]; now rewrite ?app_nil_r.
  - intros result w' Hcall. rewrite R. cbn zeta. rewrite Hcall.
    unfold logged, called, output_report.
    cbn [fst snd world running_loop transcript].
    rewrite <- app_assoc. cbn [app].
    destruct (stdout result) as [[|c out]|]; reflexivity.
  - destruct (StrFacts.slice_to_prefix 200 out) as (rest & Er & _).
    now exists rest.
  - now destruct (StrFacts.slice_to_prefix 200 out) as (rest & _ & El).
  - intros Hlen. now rewrite StrFacts.slice_to_short.
Qed.

Lemma C4_run_reports_output_witness :
  exists command,
    loop_body Mock.super_njagu (Line "run echo hi") Mock.in_process
    = (Returns Continue,
       mkState ∅ true
         [Prompt prompt_text;
          Invoked (CliOps_execute_command command);
          Stdout (LF +:+ "⚡ Command Result:");
          Stdout "  Success: True";
          Stdout "  Output: hi..."]).
Proof.
  destruct (C4_run_reports_output Mock.super_njagu "run echo hi"
              Mock.in_process eq_refl)
    as (word & command & _ & _ & _ & Hrun & _).
  exists command.
  exact (Hrun (mkCommandResult true (Some "hi")) ∅ eq_refl).
Defined.

Example run_echo_hi :
  loop_body Mock.super_njagu (Line "run echo hi") Mock.in_process
  = (Returns Continue,
     mkState ∅ true
       [Prompt prompt_text;
        Invoked (CliOps_execute_command "echo hi");
        Stdout (LF +:+ "⚡ Command Result:");
        Stdout "  Success: True";
        Stdout "  Output: hi..."]).
Proof. vm_compute. reflexivity. Qed.

(** C5.  A line that starts with [read ] in any casing is cut at its
    first space, and all that follows, embedded spaces included, is the
    file name given to [read_file]. *)
Theorem C5_read_passes_remainder {World : Type} (self : SuperNjaguMain World)
    (l : string) (s : state World) :
  Str.startswith (Str.lower (Str.strip l)) "read " = true ->
  exists word filename,
    Str.strip l = word +:+ " " +:+ filename
    /\ Str.no_space word = true
    /\ Str.lower word = "read"
    /\ calls (transcript (loop_body self (Line l) s).2)
       = calls (transcript s) ++ [FileOps_read_file filename]
    /\ (forall (result : string) (w' : World),
          FileOps.read_file (file_ops self) filename (world s)
          = (Returns result, w') ->
          loop_body self (Line l) s
          = (Returns Continue,
             called s w' [Prompt prompt_text;
                          Invoked (FileOps_read_file filename);
                          Stdout (LF +:+ "📖 " +:+ result)])).
Proof.
  intros H.
  destruct (read_turn self l H) as (word & filename & E & Hw & Hn & _ & R).
  exists word, filename. repeat split; try assumption.
  - rewrite R. solve_calls.
  - intros result w' Hcall. rewrite R. cbn zeta. rewrite Hcall.
    unfold logged, called. cbn [fst snd world running_loop transcript].
    now rewrite <- app_assoc.
Qed.

Lemma C5_read_passes_remainder_witness :
  exists word filename,
    "read my notes.txt" = word +:+ " " +:+ filename
    /\ Str.no_space word = true
    /\ calls (transcript
         (loop_body Mock.super_njagu (Line "read my notes.txt")
            Mock.in_process).2)
       = [FileOps_read_file filename].
Proof.
  destruct (C5_read_passes_remainder Mock.super_njagu "read my notes.txt"
              Mock.in_process eq_refl)
    as (word & filename & E & Hn & _ & Hc & _).
  exists word, filename. repeat split; assumption.
Defined.

Example read_keeps_embedded_spaces :
  calls (transcript
    (loop_body Mock.super_njagu (Line "read my notes.txt") Mock.in_process).2)
  = [FileOps_read_file "my notes.txt"].
Proof. vm_compute. reflexivity. Qed.

(** C6.  An error raised while a line is read, classified or dispatched
    (anything of Python's [Exception] class, a collaborator's error
    included) is caught in that turn: the loop prints the error's message
    and goes on with the next input.  No turn and no run of the loop lets
    such an error out.  So it is for [status]: when [get_status] raises,
    the message is printed and the rest of the script is read. *)
Theorem C6_loop_catches_errors {World : Type} (self : SuperNjaguMain World)
    (ev : input_event) (script : list input_event) (s s' : state World)
    (message : string) :
  try_body self ev s = (Raises (Exception message), s') ->
  loop_body self ev s
  = (Returns Continue, logged s' [Stdout (LF +:+ "❌ Error: " +:+ message)])
  /\ while_true self (ev :: script) s
     = while_true self script
         (logged s' [Stdout (LF +:+ "❌ Error: " +:+ message)])
  /\ (forall ev0 s0 m, (loop_body self ev0 s0).1 <> Raises (Exception m))
  /\ (forall script0 s0 m,
        (while_true self script0 s0).1 <> Raises (Exception m))
  /\ (forall l s0 m w' script0,
        Str.lower (Str.strip l) = "status" ->
        Agent.get_status (agent self) (world s0) = (Raises (Exception m), w') ->
        while_true self (Line l :: script0) s0
        = while_true self script0
            (called s0 w' [Prompt prompt_text; Invoked Agent_get_status;
                           Stdout (LF +:+ "❌ Error: " +:+ m)])).
Proof.
  intros H.
  assert (Hb : loop_body self ev s
               = (Returns Continue,
                  logged s' [Stdout (LF +:+ "❌ Error: " +:+ message)])).
  { unfold loop_body. now rewrite (try_except_raises _ _ _ _ H). }
  split; [exact Hb|]. split; [now rewrite while_true_cons, Hb|].
  split; [|split].
  - intros ev0 s0 m E.
    destruct (loop_body_outcome self ev0 s0) as [Ho|[Ho|Ho]];
      rewrite Ho in E; discriminate E.
  - intros script0 s0 m E.
    destruct (while_true_outcome self script0 s0) as [Ho|[Ho|Ho]];
      rewrite Ho in E; discriminate E.
  - intros l s0 m w' script0 Hl Hcall.
    rewrite while_true_cons.
    assert (Hsel : selected (Str.strip l) = On_status).
    { unfold selected. rewrite Hl.
      destruct (Str.strip l); [discriminate Hl | reflexivity]. }
    rewrite (loop_body_status self l s0 Hsel). cbn zeta. rewrite Hcall.
    unfold caught, logged, called.
    cbn [fst snd world running_loop transcript].
    now rewrite <- app_assoc.
Qed.

Lemma C6_loop_catches_errors_witness :
  loop_body Mock.broken (Line "status") Mock.in_process
  = (Returns Continue,
     mkState ∅ true
       [Prompt prompt_text; Invoked Agent_get_status;
        Stdout (LF +:+ "❌ Error: " +:+ "agent unavailable")]).
Proof.
  exact (proj1 (C6_loop_catches_errors Mock.broken (Line "status") []
                  Mock.in_process
                  (mkState ∅ true [Prompt prompt_text; Invoked Agent_get_status])
                  "agent unavailable" eq_refl)).
Defined.

(** C7.  In the run with arguments nothing stands between the agent and
    the top of the process: whatever [execute_autonomous] raises leaves
    [run_task], [main] and [asyncio.run] as it is, after the banner and
    with no summary printed.  In [interactive_mode] the same [run_task],
    reached by a caller that runs no event loop, has its errors caught
    by the loop, which prints the message and goes on. *)
Theorem C7_noninteractive_error_propagates {World : Type}
    (SuperNjaguAgent : string -> Agent.t World)
    (FileOperations : string -> FileOps.t World)
    (CLIOperations : string -> CliOps.t World)
    (argv0 a : string) (args : list string) (script : list input_event)
    (w w' : World) (e : raised) :
  let task := Str.join " " (a :: args) in
  let self := SuperNjaguMain_init SuperNjaguAgent FileOperations
                CLIOperations default_workspace in
  Agent.execute_autonomous (agent self) task w = (Raises e, w') ->
  run_task self task (mkState w true [])
  = (Raises e,
     mkState w' true (banner self task ++ [Invoked (Agent_execute_autonomous task)]))
  /\ program SuperNjaguAgent FileOperations CLIOperations
       (argv0 :: a :: args) script w
     = (Raises e,
        mkState w' false
          (banner self task ++ [Invoked (Agent_execute_autonomous task)]))
  /\ (forall (l : string) (s : state World) (message : string),
        Str.strip l = task -> selected task = On_task ->
        running_loop s = false -> world s = w -> e = Exception message ->
        loop_body self (Line l) s
        = (Returns Continue,
           called s w'
             (Prompt prompt_text :: banner self task
              ++ [Invoked (Agent_execute_autonomous task);
                  Stdout (LF +:+ "❌ Error: " +:+ message)]))).
Proof.
  intros task self Hcall. split; [|split].
  - rewrite run_task_run. cbn zeta. cbn [world]. rewrite Hcall.
    reflexivity.
  - rewrite program_with_arguments. cbn zeta. fold self. fold task.
    rewrite Hcall. reflexivity.
  - intros l s message Hl Hsel Hrun Hw He. subst e w.
    rewrite <- Hl in Hsel.
    rewrite (loop_body_task _ _ _ Hsel), Hrun. cbn zeta.
    rewrite Hl, Hcall. unfold caught, called, logged.
    cbn [fst snd world running_loop transcript]. rewrite <- !app_assoc.
    reflexivity.
Qed.

Lemma C7_noninteractive_error_propagates_witness :
  program Mock.BrokenAgent Mock.FileOperations Mock.CLIOperations
    ["main.py"; "build"; "a"; "calculator"] [] ∅
  = (Raises (Exception "agent unavailable"),
     mkState ∅ false
       (banner Mock.broken "build a calculator"
        ++ [Invoked (Agent_execute_autonomous "build a calculator")]))
  /\ loop_body Mock.broken (Line "build a calculator") Mock.standalone
     = (Returns Continue,
        mkState ∅ false
          (Prompt prompt_text :: banner Mock.broken "build a calculator"
           ++ [Invoked (Agent_execute_autonomous "build a calculator");
               Stdout (LF +:+ "❌ Error: " +:+ "agent unavailable")])).
Proof.
  pose proof (C7_noninteractive_error_propagates Mock.BrokenAgent
                Mock.FileOperations Mock.CLIOperations
                "main.py" "build" ["a"; "calculator"] [] ∅ ∅
                (Exception "agent unavailable") eq_refl) as (_ & H & Hloop).
  split; [exact H|].
  exact (Hloop "build a calculator" Mock.standalone "agent unavailable"
           eq_refl eq_refl eq_refl eq_refl eq_refl).
Defined.

(** C8 (what the code does on Ctrl-C).  In the process started without
    arguments the loop runs inside [asyncio.run(main())], whose SIGINT
    handler takes the first Ctrl-C: no [KeyboardInterrupt] reaches the
    read, so the [except KeyboardInterrupt] clause is not entered and
    nothing is printed; the session goes on as if the key had not been
    pressed.  The interrupt is not lost, though: when the loop is left
    through [exit], [asyncio.run] raises [KeyboardInterrupt] and the
    process ends with it. *)
Theorem C8_first_ctrl_c_is_not_caught {World : Type}
    (SuperNjaguAgent : string -> Agent.t World)
    (FileOperations : string -> FileOps.t World)
    (CLIOperations : string -> CliOps.t World)
    (argv0 : string) (before after : list terminal_event) (w : World) :
  no_ctrl_c before = true -> no_ctrl_c after = true ->
  (interactive_process SuperNjaguAgent FileOperations CLIOperations argv0
     (before ++ CtrlC :: after) w).2
  = (interactive_process SuperNjaguAgent FileOperations CLIOperations argv0
       (before ++ after) w).2
  /\ ((interactive_process SuperNjaguAgent FileOperations CLIOperations
         argv0 (before ++ after) w).1 = Returns Stopped ->
      (interactive_process SuperNjaguAgent FileOperations CLIOperations
         argv0 (before ++ CtrlC :: after) w).1 = Raises KeyboardInterrupt)
  /\ ((interactive_process SuperNjaguAgent FileOperations CLIOperations
         argv0 (before ++ after) w).1 <> Returns Stopped ->
      (interactive_process SuperNjaguAgent FileOperations CLIOperations
         argv0 (before ++ CtrlC :: after) w).1
      = (interactive_process SuperNjaguAgent FileOperations CLIOperations
           argv0 (before ++ after) w).1).
Proof.
  intros Hb Ha. unfold interactive_process.
  rewrite !(reads_app before _ 0 Hb). cbn [reads_under_runner].
  rewrite (reads_without_ctrl_c after 1 Ha), (reads_without_ctrl_c after 0 Ha).
  cbn [fst snd].
  destruct (program _ _ _ _ _ _) as [[[]|e] s1]; cbn [fst snd Nat.ltb Nat.leb];
    repeat split; congruence.
Qed.

Lemma C8_first_ctrl_c_is_not_caught_witness :
  interactive_process Mock.SuperNjaguAgent Mock.FileOperations
    Mock.CLIOperations "main.py" ([] ++ CtrlC :: [Typed "exit"]) ∅
  = (Raises KeyboardInterrupt,
     mkState ∅ false
       (greeting ++ [Prompt prompt_text; Stdout "👋 Goodbye!"])).
Proof.
  destruct (C8_first_ctrl_c_is_not_caught Mock.SuperNjaguAgent
              Mock.FileOperations Mock.CLIOperations "main.py"
              [] [Typed "exit"] ∅ eq_refl eq_refl) as (Hstate & Hraise & _).
  apply injective_projections; cbn [fst snd].
  - exact (Hraise eq_refl).
  - exact Hstate.
Defined.

(** From the second Ctrl-C on, [KeyboardInterrupt] is raised in the read
    and the loop prints its notice. *)
Example second_ctrl_c_is_caught :
  interactive_process Mock.SuperNjaguAgent Mock.FileOperations
    Mock.CLIOperations "main.py" [CtrlC; CtrlC] ∅
  = (Returns Awaiting_input,
     mkState ∅ false
       (greeting
        ++ [Prompt prompt_text;
            Stdout (LF +:+ LF +:+ "👋 Interrupted. Type 'exit' to quit.");
            Prompt prompt_text])).
Proof. vm_compute. reflexivity. Qed.

(** C9.  A line that is empty or made of whitespace only selects no
    clause: the turn makes no call and prints nothing (its transcript
    gains the prompt that was written before the line was read, and
    nothing else), and the loop goes on to prompt for the next line. *)
Theorem C9_blank_line_ignored {World : Type} (self : SuperNjaguMain World)
    (l : string) (script : list input_event) (s : state World) :
  Str.all_space l = true ->
  loop_body self (Line l) s
  = (Returns Continue, logged s [Prompt prompt_text])
  /\ calls (transcript (loop_body self (Line l) s).2) = calls (transcript s)
  /\ while_true self (Line l :: script) s
     = while_true self script (logged s [Prompt prompt_text])
  /\ exists rest,
       transcript (while_true self (Line l :: script) s).2
       = transcript s ++ [Prompt prompt_text; Prompt prompt_text] ++ rest.
Proof.
  intros H. apply StrFacts.strip_empty_iff in H.
  assert (Hb : loop_body self (Line l) s
               = (Returns Continue, logged s [Prompt prompt_text])).
  { apply loop_body_blank. now apply Selected.selected_blank. }
  assert (Hw : while_true self (Line l :: script) s
               = while_true self script (logged s [Prompt prompt_text])).
  { now rewrite while_true_cons, Hb. }
  repeat split; try assumption.
  - rewrite Hb. cbn. rewrite calls_app. cbn. apply app_nil_r.
  - rewrite Hw.
    destruct (while_true_prompts self script (logged s [Prompt prompt_text]))
      as (rest & Hrest).
    exists rest. rewrite Hrest. cbn [logged transcript].
    now rewrite <- app_assoc.
Qed.

Lemma C9_blank_line_ignored_witness :
  loop_body Mock.super_njagu (Line "   ") Mock.in_process
  = (Returns Continue, mkState ∅ true [Prompt prompt_text]).
Proof.
  exact (proj1 (C9_blank_line_ignored Mock.super_njagu "   " []
                  Mock.in_process eq_refl)).
Defined.

(** C10 as stated fails: the payload can begin with whitespace.  On
    [read  notes.txt], with two spaces, the file name given to
    [read_file] is [ notes.txt], its first character a space. *)
Lemma C10_payload_can_start_with_whitespace :
  calls (transcript
    (loop_body Mock.super_njagu (Line "read  notes.txt") Mock.in_process).2)
  = [FileOps_read_file " notes.txt"]
  /\ Str.first " notes.txt" = Some " "%char
  /\ Str.isspace " " = true
  /\ ~ Str.starts_nonspace " notes.txt".
Proof.
  repeat split; try (vm_compute; reflexivity).
  unfold Str.starts_nonspace. cbn. discriminate.
Qed.

(** C10, amended.  Every line is stripped before it is classified, so
    whitespace around a line changes nothing: the turn on the line with
    whitespace before and after it is the turn on the line itself, and
    [exit] with whitespace around it leaves the loop.  For [create],
    [read] and [run] the payload given to the collaborator is what
    follows the first space of the stripped line: it is not empty, it
    does not end in whitespace, and none of the whitespace around the
    line is in it.  (It keeps whatever else stands between the command
    word's space and its own first visible character.) *)
Theorem C10_strip_before_classification {World : Type}
    (self : SuperNjaguMain World) (lead l trail : string) (s : state World) :
  Str.all_space lead = true -> Str.all_space trail = true ->
  loop_body self (Line (lead +:+ l +:+ trail)) s = loop_body self (Line l) s
  /\ (loop_body self (Line (lead +:+ "exit" +:+ trail)) s).1 = Returns Break
  /\ (Str.startswith (Str.lower (Str.strip l)) "create " = true ->
      exists word content,
        Str.strip l = word +:+ " " +:+ content
        /\ Str.no_space word = true
        /\ content <> "" /\ Str.ends_nonspace content
        /\ calls (transcript
             (loop_body self (Line (lead +:+ l +:+ trail)) s).2)
           = calls (transcript s)
             ++ [FileOps_create_file "user_file.txt" content])
  /\ (Str.startswith (Str.lower (Str.strip l)) "read " = true ->
      exists word filename,
        Str.strip l = word +:+ " " +:+ filename
        /\ Str.no_space word = true
        /\ filename <> "" /\ Str.ends_nonspace filename
        /\ calls (transcript
             (loop_body self (Line (lead +:+ l +:+ trail)) s).2)
           = calls (transcript s) ++ [FileOps_read_file filename])
  /\ (Str.startswith (Str.lower (Str.strip l)) "run " = true ->
      exists word command,
        Str.strip l = word +:+ " " +:+ command
        /\ Str.no_space word = true
        /\ command <> "" /\ Str.ends_nonspace command
        /\ calls (transcript
             (loop_body self (Line (lead +:+ l +:+ trail)) s).2)
           = calls (transcript s) ++ [CliOps_execute_command command]).
Proof.
  intros Hl Ht.
  pose proof (loop_body_surrounded self lead l trail s Hl Ht) as Hsame.
  split; [exact Hsame|]. split; [|split; [|split]].
  - rewrite (loop_body_surrounded self lead "exit" trail s Hl Ht).
    now apply loop_body_break_iff.
  - intros H. rewrite Hsame.
    destruct (create_turn self l H) as (word & content & E & _ & Hn & _ & R).
    destruct (payload_of_stripped l word content E) as [Hne He].
    exists word, content. repeat split; try assumption.
    rewrite R. solve_calls.
  - intros H. rewrite Hsame.
    destruct (read_turn self l H) as (word & filename & E & _ & Hn & _ & R).
    destruct (payload_of_stripped l word filename E) as [Hne He].
    exists word, filename. repeat split; try assumption.
    rewrite R. solve_calls.
  - intros H. rewrite Hsame.
    destruct (run_turn_calls self l s H) as (word & command & E & Hn & Hc).
    destruct (payload_of_stripped l word command E) as [Hne He].
    exists word, command. repeat split; assumption.
Qed.

Lemma C10_strip_before_classification_witness :
  loop_body Mock.super_njagu (Line ("  " +:+ "read notes.txt" +:+ "   "))
    Mock.in_process
  = loop_body Mock.super_njagu (Line "read notes.txt") Mock.in_process
  /\ (loop_body Mock.super_njagu (Line ("  " +:+ "exit" +:+ "   "))
        Mock.in_process).1 = Returns Break.
Proof.
  destruct (C10_strip_before_classification Mock.super_njagu
              "  " "read notes.txt" "   " Mock.in_process eq_refl eq_refl)
    as (H1 & H2 & _).
  split; [exact H1 | exact H2].
Defined.

Example exit_surrounded_by_spaces :
  loop_body Mock.super_njagu (Line "  exit  ") Mock.in_process
  = (Returns Break, mkState ∅ true [Prompt prompt_text; Stdout "👋 Goodbye!"]).
Proof. vm_compute. reflexivity. Qed.

Example read_trailing_spaces_removed :
  calls (transcript
    (loop_body Mock.super_njagu (Line "read notes.txt   ") Mock.in_process).2)
  = [FileOps_read_file "notes.txt"].
Proof. vm_compute. reflexivity. Qed.

(** * Further properties of the dispatcher *)

(** ** Which clause a line selects *)

Lemma chain_inv (x : string) :
  match chain x with
  | On_help => x = "help"
  | On_status => x = "status"
  | On_create => Str.startswith x "create " = true
  | On_read => Str.startswith x "read " = true
  | On_run => Str.startswith x "run " = true
  | On_blank | On_exit | On_task => True
  end.
Proof.
  unfold chain.
  destruct (negb (Str.truthy x)); [exact I|].
  destruct (String.eqb_spec x "exit"); [exact I|].
  destruct (String.eqb_spec x "help"); [assumption|].
  destruct (String.eqb_spec x "status"); [assumption|].
  destruct (Str.startswith x "create "); [reflexivity|].
  destruct (Str.startswith x "read "); [reflexivity|].
  destruct (Str.startswith x "run "); [reflexivity | exact I].
Qed.

Lemma chain_clause_tests (x : string) :
  (chain x = On_help <-> x = "help")
  /\ (chain x = On_status <-> x = "status")
  /\ (chain x = On_create <-> Str.startswith x "create " = true)
  /\ (chain x = On_read <-> Str.startswith x "read " = true)
  /\ (chain x = On_run <-> Str.startswith x "run " = true).
Proof.
  pose proof (chain_inv x) as Hinv.
  repeat split; intros H;
    try (rewrite H in Hinv; exact Hinv);
    try (subst x; reflexivity).
  - now apply Selected.chain_create.
  - now apply Selected.chain_read.
  - now apply Selected.chain_run.
Qed.

(** X1.  The tests of the chain exclude one another, so their order decides
    nothing: each clause is selected exactly when its own test holds on
    the stripped line, and the last clause when none does. *)
Theorem X1_clause_selected_iff_its_test (user_input : string) :
  (selected user_input = On_blank <-> user_input = "")
  /\ (selected user_input = On_exit <-> Str.lower user_input = "exit")
  /\ (selected user_input = On_help <-> Str.lower user_input = "help")
  /\ (selected user_input = On_status <-> Str.lower user_input = "status")
  /\ (selected user_input = On_create
      <-> Str.startswith (Str.lower user_input) "create " = true)
  /\ (selected user_input = On_read
      <-> Str.startswith (Str.lower user_input) "read " = true)
  /\ (selected user_input = On_run
      <-> Str.startswith (Str.lower user_input) "run " = true)
  /\ (selected user_input = On_task
      <-> user_input <> "" /\ Str.lower user_input <> "exit"
          /\ Str.lower user_input <> "help"
          /\ Str.lower user_input <> "status"
          /\ Str.startswith (Str.lower user_input) "create " = false
          /\ Str.startswith (Str.lower user_input) "read " = false
          /\ Str.startswith (Str.lower user_input) "run " = false).
Proof.
  split; [apply Selected.selected_blank|].
  split; [apply selected_exit_iff|].
  rewrite Selected.selected_chain.
  destruct (chain_clause_tests (Str.lower user_input))
    as (Hh & Hs & Hc & Hr & Hx).
  repeat (split; [assumption|]).
  split.
  - intros Ht.
    assert (Hne : user_input <> "").
    { intros ->. discriminate Ht. }
    split; [exact Hne|].
    split; [intros E; apply Selected.chain_exit in E; congruence|].
    split; [intros E; apply Hh in E; congruence|].
    split; [intros E; apply Hs in E; congruence|].
    split; [|split].
    + apply not_true_iff_false. intros E. apply Hc in E. congruence.
    + apply not_true_iff_false. intros E. apply Hr in E. congruence.
    + apply not_true_iff_false. intros E. apply Hx in E. congruence.
  - intros (H0 & H1 & H2 & H3 & H4 & H5 & H6).
    apply Selected.chain_task; try assumption.
    intros E. apply H0. now apply Selected.lower_empty.
Qed.

(** X2.  A stripped line without a space in it selects [exit], [help] or
    [status] when it is that word, and the task clause otherwise: the
    words [create], [read] and [run] alone, with no payload, are tasks. *)
Theorem X2_single_word_is_keyword_or_task (user_input : string) :
  Str.no_space user_input = true ->
  user_input <> "" ->
  Str.lower user_input <> "exit" ->
  Str.lower user_input <> "help" ->
  Str.lower user_input <> "status" ->
  selected user_input = On_task.
Proof.
  intros Hns H0 H1 H2 H3.
  assert (Hno : forall p, Str.startswith (Str.lower user_input) (p +:+ " ")
                          = false).
  { intros p. destruct (Str.startswith _ _) eqn:E; [|reflexivity].
    destruct (StrFacts.startswith_word p user_input E) as (w & rest & -> & _).
    now rewrite StrFacts.no_space_append_space in Hns. }
  rewrite Selected.selected_chain. apply Selected.chain_task;
    try assumption;
    [ intros E; apply H0; now apply Selected.lower_empty
    | apply (Hno "create") | apply (Hno "read") | apply (Hno "run") ].
Qed.

Lemma X2_single_word_is_keyword_or_task_witness :
  selected "CREATE" = On_task.
Proof.
  apply (X2_single_word_is_keyword_or_task "CREATE");
    vm_compute; congruence.
Defined.

(** X3.  In the clauses of [create], [read] and [run] the unpacking of
    [split(' ', 1)] never fails: the stripped line always has its two
    parts, the command word and a payload, so no [ValueError] comes from
    the dispatcher itself. *)
Theorem X3_unpack_never_fails {World : Type} (user_input : string)
    (s : state World) :
  selected user_input = On_create \/ selected user_input = On_read
  \/ selected user_input = On_run ->
  exists word payload,
    unpack2 (Str.split1 " " user_input) s = (Returns (word, payload), s)
    /\ user_input = word +:+ " " +:+ payload
    /\ Str.no_space word = true.
Proof.
  intros H. pose proof (selected_cases user_input) as Hc.
  destruct H as [H|[H|H]]; rewrite H in Hc;
    destruct Hc as (word & payload & E & _ & Hn & Hsp);
    exists word, payload; rewrite Hsp; repeat split; assumption.
Qed.

Lemma X3_unpack_never_fails_witness :
  exists word payload,
    unpack2 (Str.split1 " " "Run ls -la") Mock.in_process
    = (Returns (word, payload), Mock.in_process)
    /\ "Run ls -la" = word +:+ " " +:+ payload
    /\ Str.no_space word = true.
Proof.
  apply (X3_unpack_never_fails "Run ls -la" Mock.in_process).
  right. right. reflexivity.
Defined.

(** ** What the commands do *)

(** X4.  Whatever is typed after the command word and one space reaches the
    collaborator as it is: for a payload that is not empty and does not
    end in whitespace, and the command word in any casing, the turn
    makes exactly the call on that payload (its own casing and inner
    spaces kept; for [create] under the name [user_file.txt]). *)
Theorem X4_typed_payload_arrives {World : Type} (self : SuperNjaguMain World)
    (word payload : string) (s : state World) :
  payload <> "" -> Str.ends_nonspace payload ->
  (Str.lower word = "create" ->
   calls (transcript (loop_body self (Line (word +:+ " " +:+ payload)) s).2)
   = calls (transcript s) ++ [FileOps_create_file "user_file.txt" payload])
  /\ (Str.lower word = "read" ->
      calls (transcript
        (loop_body self (Line (word +:+ " " +:+ payload)) s).2)
      = calls (transcript s) ++ [FileOps_read_file payload])
  /\ (Str.lower word = "run" ->
      calls (transcript
        (loop_body self (Line (word +:+ " " +:+ payload)) s).2)
      = calls (transcript s) ++ [CliOps_execute_command payload]).
Proof.
  intros Hne Hend.
  assert (Hline : forall p, Str.no_space p = true -> p <> "" ->
            Str.starts_nonspace p -> Str.lower word = p ->
            Str.strip (word +:+ " " +:+ payload) = word +:+ " " +:+ payload
            /\ Str.startswith (Str.lower (word +:+ " " +:+ payload))
                 (p +:+ " ") = true
            /\ Str.split1 " " (word +:+ " " +:+ payload) = [word; payload]).
  { intros p Hp Hp0 Hps Hw.
    assert (Hnw : Str.no_space word = true)
      by (apply StrFacts.no_space_lower; now rewrite Hw).
    split; [|split].
    - apply StrFacts.strip_id.
      + destruct word as [|c word]; [subst p; now elim Hp0|].
        subst p. unfold Str.starts_nonspace in *. cbn [Str.first Str.lower] in *.
        StrFacts.push_append. cbn [Str.first].
        now apply StrFacts.isspace_lower_char.
      + unfold Str.ends_nonspace in *.
        change (" " +:+ payload) with (String " " payload).
        rewrite StrFacts.last_append_cons.
        destruct payload as [|d payload]; [now elim Hne | exact Hend].
    - rewrite StrFacts.lower_append, Hw.
      apply StrFacts.startswith_append, StrFacts.startswith_lower_space.
    - now apply StrFacts.split1_first_space. }
  split; [|split]; intros Hw.
  - destruct (Hline "create" eq_refl ltac:(discriminate) eq_refl Hw)
      as (Hst & Hsw & Hsp).
    rewrite <- Hst in Hsw, Hsp.
    rewrite (loop_body_create self _ word payload s); [solve_calls| |exact Hsp].
    rewrite Selected.selected_chain. now apply Selected.chain_create.
  - destruct (Hline "read" eq_refl ltac:(discriminate) eq_refl Hw)
      as (Hst & Hsw & Hsp).
    rewrite <- Hst in Hsw, Hsp.
    rewrite (loop_body_read self _ word payload s); [solve_calls| |exact Hsp].
    rewrite Selected.selected_chain. now apply Selected.chain_read.
  - destruct (Hline "run" eq_refl ltac:(discriminate) eq_refl Hw)
      as (Hst & Hsw & Hsp).
    rewrite <- Hst in Hsw, Hsp.
    rewrite (loop_body_run self _ word payload s); [| |exact Hsp].
    + cbn zeta.
      destruct (CliOps.execute_command _ _ _) as [[result|e] w'];
        cbn [fst snd]; rewrite ?calls_caught; unfold logged, called;
        cbn [transcript]; rewrite ?calls_app, ?calls_output_report;
        cbn [calls omap app]; now rewrite ?app_nil_r.
    + rewrite Selected.selected_chain. now apply Selected.chain_run.
Qed.

Lemma X4_typed_payload_arrives_witness :
  calls (transcript
    (loop_body Mock.super_njagu (Line ("ReAd" +:+ " " +:+ "My  Notes.TXT"))
       Mock.in_process).2)
  = [FileOps_read_file "My  Notes.TXT"].
Proof.
  destruct (X4_typed_payload_arrives Mock.super_njagu "ReAd" "My  Notes.TXT"
              Mock.in_process ltac:(discriminate) eq_refl) as (_ & H & _).
  exact (H eq_refl).
Defined.

(** X5.  [status], in any casing: when [get_status] returns a mapping the
    loop prints the heading and then one line for each entry, in the
    order of the mapping, as two spaces, the key, a colon and a space,
    the value; for an empty mapping the heading alone. *)
Theorem X5_status_lists_every_entry {World : Type}
    (self : SuperNjaguMain World) (l : string) (s : state World)
    (status : AgentStatus) (w' : World) :
  Str.lower (Str.strip l) = "status" ->
  Agent.get_status (agent self) (world s) = (Returns status, w') ->
  loop_body self (Line l) s
  = (Returns Continue,
     called s w'
       ([Prompt prompt_text; Invoked Agent_get_status;
         Stdout (LF +:+ "📊 Agent Status:")]
        ++ map (fun entry => Stdout ("  " +:+ entry.1 +:+ ": " +:+ entry.2))
             status))
  /\ (status = [] ->
      transcript (loop_body self (Line l) s).2
      = transcript s ++ [Prompt prompt_text; Invoked Agent_get_status;
                         Stdout (LF +:+ "📊 Agent Status:")]).
Proof.
  intros Hl Hcall.
  assert (Hsel : selected (Str.strip l) = On_status).
  { unfold selected. rewrite Hl.
    destruct (Str.strip l); [discriminate Hl | reflexivity]. }
  assert (Hrun : loop_body self (Line l) s
    = (Returns Continue,
       called s w'
         ([Prompt prompt_text; Invoked Agent_get_status;
           Stdout (LF +:+ "📊 Agent Status:")]
          ++ map (fun entry => Stdout ("  " +:+ entry.1 +:+ ": " +:+ entry.2))
               status))).
  { rewrite (loop_body_status self l s Hsel). cbn zeta. rewrite Hcall.
    unfold logged, called, status_line.
    cbn [fst snd world running_loop transcript]. now rewrite <- app_assoc. }
  split; [exact Hrun|].
  intros ->. rewrite Hrun. reflexivity.
Qed.

Lemma X5_status_lists_every_entry_witness :
  loop_body Mock.super_njagu (Line " STATUS ") Mock.in_process
  = (Returns Continue,
     mkState ∅ true
       [Prompt prompt_text; Invoked Agent_get_status;
        Stdout (LF +:+ "📊 Agent Status:");
        Stdout "  state: idle"; Stdout "  workspace: /workspace"]).
Proof.
  exact (proj1 (X5_status_lists_every_entry Mock.super_njagu " STATUS "
                  Mock.in_process
                  [("state", "idle"); ("workspace", "/workspace")] ∅
                  eq_refl eq_refl)).
Defined.

(** X6.  A [KeyboardInterrupt] raised while a shell command runs is
    caught like one raised in the read: when [execute_command] raises
    [KeyboardInterrupt] the turn prints the interrupt message, none of
    the result lines, and the loop goes on. *)
Theorem X6_interrupt_during_command {World : Type}
    (self : SuperNjaguMain World) (l : string) (s : state World) :
  Str.startswith (Str.lower (Str.strip l)) "run " = true ->
  exists word command,
    Str.strip l = word +:+ " " +:+ command
    /\ Str.no_space word = true
    /\ forall w',
         CliOps.execute_command (cli_ops self) command (world s)
         = (Raises KeyboardInterrupt, w') ->
         loop_body self (Line l) s
         = (Returns Continue,
            called s w'
              [Prompt prompt_text;
               Invoked (CliOps_execute_command command);
               Stdout (LF +:+ LF +:+ "👋 Interrupted. Type 'exit' to quit.")]).
Proof.
  intros H.
  destruct (run_turn self l H) as (word & command & E & _ & Hn & _ & R).
  exists word, command. repeat split; try assumption.
  intros w' Hcall. rewrite R. cbn zeta. rewrite Hcall.
  unfold caught, logged, called.
  cbn [fst snd world running_loop transcript]. now rewrite <- app_assoc.
Qed.

Lemma X6_interrupt_during_command_witness :
  exists command,
    loop_body Mock.interrupted (Line "run sleep 60") Mock.in_process
    = (Returns Continue,
       mkState ∅ true
         [Prompt prompt_text;
          Invoked (CliOps_execute_command command);
          Stdout (LF +:+ LF +:+ "👋 Interrupted. Type 'exit' to quit.")]).
Proof.
  destruct (X6_interrupt_during_command Mock.interrupted "run sleep 60"
              Mock.in_process eq_refl) as (word & command & _ & _ & H).
  exists command. exact (H ∅ eq_refl).
Defined.

(** ** Counting prompts and calls *)

Lemma prompts_app (t1 t2 : list event) :
  prompts (t1 ++ t2) = prompts t1 + prompts t2.
Proof. unfold prompts. now rewrite List.filter_app, length_app. Qed.

Lemma prompts_prompt (text : string) (t : list event) :
  prompts (Prompt text :: t) = S (prompts t).
Proof. reflexivity. Qed.

Lemma prompts_stdout (text : string) (t : list event) :
  prompts (Stdout text :: t) = prompts t.
Proof. reflexivity. Qed.

Lemma prompts_invoked (c : call) (t : list event) :
  prompts (Invoked c :: t) = prompts t.
Proof. reflexivity. Qed.

Lemma prompts_nil : prompts [] = 0.
Proof. reflexivity. Qed.

Lemma prompts_map_stdout {A : Type} (render : A -> string) (l : list A) :
  prompts (map (fun x => Stdout (render x)) l) = 0.
Proof. induction l as [|x l IH]; [reflexivity | exact IH]. Qed.

Lemma prompts_output_report (result : CommandResult) :
  prompts (output_report result) = 0.
Proof.
  unfold output_report. destruct (stdout result) as [[|c out]|]; reflexivity.
Qed.

Lemma calls_prompt (text : string) (t : list event) :
  calls (Prompt text :: t) = calls t.
Proof. reflexivity. Qed.

Lemma calls_stdout (text : string) (t : list event) :
  calls (Stdout text :: t) = calls t.
Proof. reflexivity. Qed.

Lemma calls_invoked (c : call) (t : list event) :
  calls (Invoked c :: t) = c :: calls t.
Proof. reflexivity. Qed.

Lemma calls_nil : calls [] = [].
Proof. reflexivity. Qed.

Lemma calls_map_stdout {A : Type} (render : A -> string) (l : list A) :
  calls (map (fun x => Stdout (render x)) l) = [].
Proof. induction l as [|x l IH]; [reflexivity | exact IH]. Qed.

Create Rewrite HintDb transcript.
#[global] Hint Rewrite prompts_app prompts_prompt prompts_stdout
  prompts_invoked prompts_nil @prompts_map_stdout prompts_output_report
  calls_app calls_prompt calls_stdout calls_invoked calls_nil
  @calls_map_stdout calls_output_report : transcript.

(** Brings a goal about the prompts and calls of an explicit transcript
    to arithmetic and list equations. *)
Ltac count_events :=
  unfold banner, summary, status_line;
  autorewrite with transcript;
  rewrite <- ?app_assoc, ?app_nil_r; cbn [app].

(** Every turn writes the prompt exactly once and makes at most one
    call to a collaborator, after the calls made before; a turn that
    makes no call leaves the collaborators' world as it was. *)
Lemma turn_accounting {World : Type}
    (self : SuperNjaguMain World) (ev : input_event) (s : state World) :
  prompts (transcript (loop_body self ev s).2) = S (prompts (transcript s))
  /\ exists cs,
       calls (transcript (loop_body self ev s).2) = calls (transcript s) ++ cs
       /\ length cs <= 1
       /\ (cs = [] -> world (loop_body self ev s).2 = world s).
Proof.
  destruct ev as [l| |].
  - line_cases self l s; call_cases;
      (split;
       [ count_events; lia
       | eexists; split;
         [ etransitivity;
           [ count_events; reflexivity
           | first [reflexivity | symmetry; apply app_nil_r] ]
         | split;
           [cbn; lia | intros E; first [discriminate E | reflexivity]] ] ]).
  - rewrite loop_body_interrupt. unfold logged. cbn [snd transcript world].
    split; [count_events; lia|]. exists [].
    split; [count_events; reflexivity | split; [cbn; lia | reflexivity]].
  - rewrite loop_body_eof. unfold logged. cbn [snd transcript world].
    split; [count_events; lia|]. exists [].
    split; [count_events; reflexivity | split; [cbn; lia | reflexivity]].
Qed.

(** X7.  Along a script of [n] inputs the loop makes at most [n] calls to
    collaborators, after the calls made before, and writes at most
    [n + 1] prompts: exactly [n + 1] when it ends awaiting input.  If it
    made no call, the collaborators' world is as it was. *)
Theorem X7_script_prompts_and_calls {World : Type}
    (self : SuperNjaguMain World) (script : list input_event)
    (s : state World) :
  exists cs,
    calls (transcript (while_true self script s).2)
    = calls (transcript s) ++ cs
    /\ length cs <= length script
    /\ (cs = [] -> world (while_true self script s).2 = world s)
    /\ prompts (transcript (while_true self script s).2)
       <= prompts (transcript s) + S (length script)
    /\ ((while_true self script s).1 = Returns Awaiting_input ->
        prompts (transcript (while_true self script s).2)
        = prompts (transcript s) + S (length script)).
Proof.
  revert s. induction script as [|ev script IH]; intros s.
  - exists []. cbn [while_true]. exec.
    repeat split; count_events; cbn; try reflexivity; lia.
  - rewrite while_true_cons.
    destruct (turn_accounting self ev s) as (Hp & cs1 & Hc1 & Hl1 & Hw1).
    destruct (loop_body self ev s) as [[[]|e] s1];
      cbn [fst snd] in Hp, Hc1, Hw1 |- *.
    + destruct (IH s1) as (cs2 & Hc2 & Hl2 & Hw2 & Hp2 & Hp3).
      exists (cs1 ++ cs2). rewrite Hc2, Hc1, <- app_assoc.
      split; [reflexivity|]. rewrite length_app. cbn [length].
      split; [lia|]. split.
      * intros E. apply app_eq_nil in E as [E1 E2].
        rewrite (Hw2 E2). exact (Hw1 E1).
      * split; [lia|]. intros Ha. rewrite (Hp3 Ha). lia.
    + exists cs1. cbn [length].
      repeat split; try assumption; try lia. discriminate.
    + exists cs1. cbn [length].
      repeat split; try assumption; try lia. discriminate.
Qed.

(** ** Leaving, and not leaving, the loop *)

(** X8.  [exit] ends the session at once: the turn prints the farewell and
    makes no call, and nothing that follows it in the input is read,
    whatever came before. *)
Theorem X8_exit_ends_session {World : Type} (self : SuperNjaguMain World)
    (before after : list input_event) (ev : input_event) (s : state World) :
  is_exit ev = true ->
  while_true self (ev :: after) s
  = (Returns Stopped, logged s [Prompt prompt_text; Stdout "👋 Goodbye!"])
  /\ while_true self (before ++ ev :: after) s
     = while_true self (before ++ [ev]) s.
Proof.
  intros He.
  assert (Hturn : forall s0,
            loop_body self ev s0
            = (Returns Break,
               logged s0 [Prompt prompt_text; Stdout "👋 Goodbye!"])).
  { intros s0. destruct ev as [l| |]; try discriminate He.
    cbn [is_exit] in He. apply String.eqb_eq, selected_exit_iff in He.
    now apply loop_body_exit. }
  split.
  - now rewrite while_true_cons, Hturn.
  - revert s. induction before as [|ev0 before IH]; intros s.
    + cbn [app]. now rewrite !while_true_cons, Hturn.
    + cbn [app]. rewrite !while_true_cons.
      destruct (loop_body self ev0 s) as [[[]|e] s1];
        [apply IH | reflexivity | reflexivity].
Qed.

Lemma X8_exit_ends_session_witness :
  while_true Mock.super_njagu
    ([Line "help"] ++ Line " Exit " :: [Line "run rm -rf /"]) Mock.in_process
  = while_true Mock.super_njagu ([Line "help"] ++ [Line " Exit "])
      Mock.in_process.
Proof.
  exact (proj2 (X8_exit_ends_session Mock.super_njagu [Line "help"]
                  [Line "run rm -rf /"] (Line " Exit ") Mock.in_process
                  eq_refl)).
Defined.



(** So it is in the process at the end of its input: the end of input
    is read again and again, each time reported as an error. *)
Example process_at_end_of_input :
  interactive_process Mock.SuperNjaguAgent Mock.FileOperations
    Mock.CLIOperations "main.py" [EndOfInput; EndOfInput] ∅
  = (Returns Awaiting_input,
     mkState ∅ false
       (greeting
        ++ [Prompt prompt_text;
            Stdout (LF +:+ "❌ Error: " +:+ "EOF when reading a line");
            Prompt prompt_text;
            Stdout (LF +:+ "❌ Error: " +:+ "EOF when reading a line");
            Prompt prompt_text])).
Proof. vm_compute. reflexivity. Qed.

(** ** The two modes of the process *)

Lemma agent_tasks_app (t1 t2 : list event) :
  agent_tasks (t1 ++ t2) = agent_tasks t1 ++ agent_tasks t2.
Proof. apply omap_app. Qed.

Lemma agent_tasks_stdout (text : string) (t : list event) :
  agent_tasks (Stdout text :: t) = agent_tasks t.
Proof. reflexivity. Qed.

Lemma agent_tasks_map_stdout {A : Type} (render : A -> string) (l : list A) :
  agent_tasks (map (fun x => Stdout (render x)) l) = [].
Proof. induction l as [|x l IH]; [reflexivity | exact IH]. Qed.

Lemma agent_tasks_output_report (result : CommandResult) :
  agent_tasks (output_report result) = [].
Proof.
  unfold output_report. destruct (stdout result) as [[|c out]|]; reflexivity.
Qed.

(** Inside a running event loop a turn never reaches the agent's
    [execute_autonomous]. *)
Lemma turn_in_running_loop {World : Type} (self : SuperNjaguMain World)
    (ev : input_event) (s : state World) :
  running_loop s = true ->
  agent_tasks (transcript (loop_body self ev s).2)
  = agent_tasks (transcript s).
Proof.
  intros Hloop. destruct ev as [l| |].
  - line_cases self l s; call_cases; try discriminate Hloop;
      rewrite ?agent_tasks_app, ?agent_tasks_stdout, ?agent_tasks_map_stdout,
        ?agent_tasks_output_report;
      cbn [agent_tasks omap app]; now rewrite ?app_nil_r.
  - rewrite loop_body_interrupt. unfold logged. cbn [snd transcript].
    rewrite agent_tasks_app. apply app_nil_r.
  - rewrite loop_body_eof. unfold logged. cbn [snd transcript].
    rewrite agent_tasks_app. apply app_nil_r.
Qed.

Lemma loop_in_running_loop {World : Type} (self : SuperNjaguMain World)
    (script : list input_event) (s : state World) :
  running_loop s = true ->
  agent_tasks (transcript (while_true self script s).2)
  = agent_tasks (transcript s).
Proof.
  revert s. induction script as [|ev script IH]; intros s Hloop.
  - cbn [while_true]. exec. rewrite agent_tasks_app. apply app_nil_r.
  - rewrite while_true_cons.
    pose proof (turn_in_running_loop self ev s Hloop) as Hturn.
    destruct (loop_body_shape self ev s) as [_ Hkeep].
    destruct (loop_body self ev s) as [[[]|e] s1];
      cbn [fst snd] in Hturn, Hkeep |- *; try exact Hturn.
    rewrite IH; [exact Hturn | congruence].
Qed.

(** X10.  Started without arguments, the process greets, prompts, and never
    runs a task: whatever is typed, along any script of inputs, the
    agent's [execute_autonomous] is not called once.  (The nested
    [asyncio.run] of the task clause is always refused inside the event
    loop that runs [main].) *)
Theorem X10_interactive_process_never_runs_a_task {World : Type}
    (SuperNjaguAgent : string -> Agent.t World)
    (FileOperations : string -> FileOps.t World)
    (CLIOperations : string -> CliOps.t World)
    (argv0 : string) (script : list input_event) (w : World) :
  agent_tasks (transcript
    (program SuperNjaguAgent FileOperations CLIOperations
       [argv0] script w).2) = []
  /\ exists rest,
       transcript
         (program SuperNjaguAgent FileOperations CLIOperations
            [argv0] script w).2
       = greeting ++ Prompt prompt_text :: rest.
Proof.
  rewrite program_without_arguments. cbn zeta.
  unfold set_running_loop. cbn [snd transcript]. split.
  - now rewrite loop_in_running_loop.
  - apply while_true_prompts.
Qed.

(** X11.  Started with arguments, the process reads no input and knows no
    command words: whatever the first argument is ([exit] or [help]
    too) and whatever the agent does, it writes no prompt, ignores what
    stands on standard input, and makes exactly one call, the agent's
    [execute_autonomous] on the joined arguments. *)
Theorem X11_one_shot_reads_no_input {World : Type}
    (SuperNjaguAgent : string -> Agent.t World)
    (FileOperations : string -> FileOps.t World)
    (CLIOperations : string -> CliOps.t World)
    (argv0 a : string) (args : list string) (script : list input_event)
    (w : World) :
  program SuperNjaguAgent FileOperations CLIOperations
    (argv0 :: a :: args) script w
  = program SuperNjaguAgent FileOperations CLIOperations
      (argv0 :: a :: args) [] w
  /\ calls (transcript
       (program SuperNjaguAgent FileOperations CLIOperations
          (argv0 :: a :: args) script w).2)
     = [Agent_execute_autonomous (Str.join " " (a :: args))]
  /\ prompts (transcript
       (program SuperNjaguAgent FileOperations CLIOperations
          (argv0 :: a :: args) script w).2) = 0.
Proof.
  rewrite !program_with_arguments. cbn zeta.
  split; [reflexivity|].
  destruct (Agent.execute_autonomous _ _ _) as [[result|e] w'];
    cbn [fst snd transcript]; split; count_events; reflexivity.
Qed.

(** X12.  A command whose collaborator raises an error prints the error and
    nothing of its own: the stripped line is cut at its first space, and
    when the call on that payload raises, the one line of the turn after
    the call is the error's message; no [create] or [read] result, no
    [run] report. *)
Theorem X12_failed_command_prints_only_the_error {World : Type}
    (self : SuperNjaguMain World) (l : string) (s : state World)
    (message : string) (w' : World) :
  (Str.startswith (Str.lower (Str.strip l)) "create " = true ->
   exists word content,
     Str.strip l = word +:+ " " +:+ content
     /\ Str.no_space word = true
     /\ (FileOps.create_file (file_ops self) "user_file.txt" content (world s)
         = (Raises (Exception message), w') ->
         loop_body self (Line l) s
         = (Returns Continue,
            called s w'
              [Prompt prompt_text;
               Invoked (FileOps_create_file "user_file.txt" content);
               Stdout (LF +:+ "❌ Error: " +:+ message)])))
  /\ (Str.startswith (Str.lower (Str.strip l)) "read " = true ->
      exists word filename,
        Str.strip l = word +:+ " " +:+ filename
        /\ Str.no_space word = true
        /\ (FileOps.read_file (file_ops self) filename (world s)
            = (Raises (Exception message), w') ->
            loop_body self (Line l) s
            = (Returns Continue,
               called s w'
                 [Prompt prompt_text;
                  Invoked (FileOps_read_file filename);
                  Stdout (LF +:+ "❌ Error: " +:+ message)])))
  /\ (Str.startswith (Str.lower (Str.strip l)) "run " = true ->
      exists word command,
        Str.strip l = word +:+ " " +:+ command
        /\ Str.no_space word = true
        /\ (CliOps.execute_command (cli_ops self) command (world s)
            = (Raises (Exception message), w') ->
            loop_body self (Line l) s
            = (Returns Continue,
               called s w'
                 [Prompt prompt_text;
                  Invoked (CliOps_execute_command command);
                  Stdout (LF +:+ "❌ Error: " +:+ message)]))).
Proof.
  split; [|split]; intros H.
  - destruct (create_turn self l H) as (word & content & E & _ & Hn & _ & R).
    exists word, content. split; [exact E|]. split; [exact Hn|].
    intros Hcall.
    rewrite R. cbn zeta. rewrite Hcall. unfold caught, logged, called.
    cbn [fst snd world running_loop transcript]. now rewrite <- app_assoc.
  - destruct (read_turn self l H) as (word & filename & E & _ & Hn & _ & R).
    exists word, filename. split; [exact E|]. split; [exact Hn|].
    intros Hcall.
    rewrite R. cbn zeta. rewrite Hcall. unfold caught, logged, called.
    cbn [fst snd world running_loop transcript]. now rewrite <- app_assoc.
  - destruct (run_turn self l H) as (word & command & E & _ & Hn & _ & R).
    exists word, command. split; [exact E|]. split; [exact Hn|].
    intros Hcall.
    rewrite R. cbn zeta. rewrite Hcall. unfold caught, logged, called.
    cbn [fst snd world running_loop transcript]. now rewrite <- app_assoc.
Qed.

Lemma X12_failed_command_prints_only_the_error_witness :
  exists word content,
    "create draft one" = word +:+ " " +:+ content
    /\ Str.no_space word = true
    /\ loop_body Mock.locked (Line "create draft one") Mock.in_process
       = (Returns Continue,
          mkState ∅ true
            [Prompt prompt_text;
             Invoked (FileOps_create_file "user_file.txt" content);
             Stdout (LF +:+ "❌ Error: " +:+ "workspace is locked")]).
Proof.
  destruct (X12_failed_command_prints_only_the_error Mock.locked
              "create draft one" Mock.in_process
              "workspace is locked" ∅) as (H & _).
  destruct (H eq_refl) as (word & content & E & Hn & Hrun).
  exists word, content. split; [exact E|]. split; [exact Hn|].
  exact (Hrun eq_refl).
Defined.

(** On a line with two spaces the cut is at the first: the call that
    fails is the one on all that follows it. *)
Example failed_create_with_two_spaces :
  loop_body Mock.locked (Line "create a b") Mock.in_process
  = (Returns Continue,
     mkState ∅ true
       [Prompt prompt_text;
        Invoked (FileOps_create_file "user_file.txt" "a b");
        Stdout (LF +:+ "❌ Error: " +:+ "workspace is locked")]).
Proof. vm_compute. reflexivity. Qed.
